(** * convert_to_geojson / convert_to_multipoint: the feature extractor

    A shallow embedding of [process_json_file] of
    [src/convert_to_geojson.py] (the pass-through variant, "Variant A")
    and of [src/convert_to_multipoint.py] (the LineString -> MultiPoint
    variant, "Variant B"), and the properties of the two that the
    specification states.

    Layout of the file:
    - [Py]       the Python values [json.load] builds and the few
                 operations of the interpreter the two scripts use;
    - [Run]      the state-and-exception monad the function bodies are
                 written in (the file system, what was printed,
                 [final_features], and a raised exception);
    - [Extract]  what the two files share of [process_json_file];
      [Geojson], [Multipoint]  the body of the innermost loop of each
                 file, and its [process_json_file];
    - [Shape]    the input shape of section 3 of the specification, the
                 traversal it describes as list functions, and what
                 section 4 promises of a run;
    - [Examples] documents the statements are tried on;
    - [Variants] the two variants side by side;
    - [Paths]    the file names: the filters and [os.path.splitext];
    - [Batch]    the two drivers, [convert_directory_to_geojson] and
                 [convert_directory_to_multipoint];
    - [Heatmap]  [find_geojson_files] of create_heatmap_cli.py;
    - then the lemmas, the properties C1 to C10 of the specification,
      and the further properties X1 to X15 of the code. *)

From Stdlib Require Import List String Ascii ZArith Bool Lia.
From Stdlib Require Import SpecFloat.
Import ListNotations.
Open Scope string_scope.
Open Scope list_scope.

Set Implicit Arguments.
Set Warnings "-register-all".

(* ================================================================== *)
(** ** Python values and interpreter primitives *)
(* ================================================================== *)

Module Py.

(** What [json.load] returns: [None], [bool], [int], [float] (any
    IEEE double, [NaN] and the infinities included, which the
    decoder accepts), [str], [list] and [dict].  A [dict] keeps its
    keys in insertion order, which is also the order [json.dump]
    writes them in, so it is an association list whose first
    binding of a key is the binding. *)
Inductive value : Type :=
| VNone
| VBool (b : bool)
| VInt (n : Z)
| VFloat (f : spec_float)
| VStr (s : string)
| VList (xs : list value)
| VDict (kvs : list (string * value)).

Definition dict := list (string * value).

(** The exceptions the interpreter raises on the operations below, and
    those of [open], [json.load] and [json.dump] that no [except]
    clause of the scripts catches. *)
Inductive exn : Type :=
| AttributeError   (* [x.get], [x.copy], [x.update] on a value without it *)
| TypeError        (* ['k' in x], [for _ in x], [x[k]] on a value without it *)
| KeyError         (* [d[k]] on a [dict] without the key *)
| OSError          (* [open] on a directory or without the permission:
                      IsADirectoryError, PermissionError, by platform *)
| UnicodeDecodeError   (* reading bytes that are no UTF-8 *)
| ValueError       (* [json.load] on an integer of too many digits *)
| RecursionError.  (* [json.load], [json.dump] on a nesting too deep *)

(** [d.get(k)] as an option: the first binding of [k]. *)
Fixpoint dict_get (k : string) (d : dict) : option value :=
  match d with
  | [] => None
  | (k', v) :: rest => if String.eqb k k' then Some v else dict_get k rest
  end.

(** [k in d]. *)
Definition dict_has (k : string) (d : dict) : bool :=
  match dict_get k d with Some _ => true | None => false end.

(** [d[k] = v]: an existing key keeps its position and takes the new
    value, a new key goes to the end. *)
Fixpoint dict_set (k : string) (v : value) (d : dict) : dict :=
  match d with
  | [] => [(k, v)]
  | (k', v') :: rest =>
      if String.eqb k k' then (k', v) :: rest
      else (k', v') :: dict_set k v rest
  end.

(** [d.update(other)]: [d[k] = v] for each item of [other], in order. *)
Definition dict_update (d other : dict) : dict :=
  fold_left (fun acc kv => dict_set (fst kv) (snd kv) acc) other d.

(** [bool(x)]. *)
Definition truthy (x : value) : bool :=
  match x with
  | VNone => false
  | VBool b => b
  | VInt n => negb (Z.eqb n 0)
  | VFloat (S754_zero _) => false
  | VFloat _ => true
  | VStr s => match s with EmptyString => false | String _ _ => true end
  | VList xs => match xs with [] => false | _ => true end
  | VDict kvs => match kvs with [] => false | _ => true end
  end.

(** [x == s] for a [str] literal [s]: only an equal [str] is equal. *)
Definition eq_str (x : value) (s : string) : bool :=
  match x with
  | VStr t => String.eqb t s
  | _ => false
  end.

(** [sub in s] on two [str]: [sub] occurs in [s]. *)
Fixpoint str_contains (sub s : string) : bool :=
  if String.prefix sub s then true
  else match s with
       | EmptyString => false
       | String _ rest => str_contains sub rest
       end.

(** [k in x] for a [str] literal [k]: a key of a [dict], an element
    of a [list], a substring of a [str]; the other values are not
    containers. *)
Definition contains (k : string) (x : value) : exn + bool :=
  match x with
  | VDict d => inr (dict_has k d)
  | VList xs => inr (existsb (fun e => eq_str e k) xs)
  | VStr s => inr (str_contains k s)
  | _ => inl TypeError
  end.

(** The elements [for e in x] visits: the elements of a [list], the
    keys of a [dict], the characters of a [str] (each a [str] of
    length one; a character is a byte here, a code point there, a
    [str] either way). *)
Definition chars (s : string) : list value :=
  map (fun c => VStr (String c EmptyString)) (list_ascii_of_string s).

Definition iter (x : value) : exn + list value :=
  match x with
  | VList xs => inr xs
  | VDict d => inr (map (fun kv => VStr (fst kv)) d)
  | VStr s => inr (chars s)
  | _ => inl TypeError
  end.

(** [x.get(k, default)]: only a [dict] has the method. *)
Definition get (x : value) (k : string) (default : value) : exn + value :=
  match x with
  | VDict d => inr (match dict_get k d with Some v => v | None => default end)
  | _ => inl AttributeError
  end.

(** [x.copy()]: a [dict] and a [list] have it; the copy is shallow,
    its entries are the entries of [x]. *)
Definition copy (x : value) : exn + value :=
  match x with
  | VDict d => inr (VDict d)
  | VList xs => inr (VList xs)
  | _ => inl AttributeError
  end.

(** [x.update(other)] for a [dict] [other]: only a [dict] has it. *)
Definition update (x : value) (other : dict) : exn + value :=
  match x with
  | VDict d => inr (VDict (dict_update d other))
  | _ => inl AttributeError
  end.

(** [x[k]] for a [str] key [k]: a [list] and a [str] take no [str]
    index, the other values no index at all. *)
Definition getitem (x : value) (k : string) : exn + value :=
  match x with
  | VDict d => match dict_get k d with Some v => inr v | None => inl KeyError end
  | _ => inl TypeError
  end.

(** [x[k] = v] for a [str] key [k]. *)
Definition setitem (x : value) (k : string) (v : value) : exn + value :=
  match x with
  | VDict d => inr (VDict (dict_set k v d))
  | _ => inl TypeError
  end.

End Py.
Import Py.

(* ================================================================== *)
(** ** The monad of the function bodies *)
(* ================================================================== *)

Module Run.

(** What the scripts print.  The texts are f-strings over the path and
    the user id; each constructor is one [print] of the source and
    carries what that f-string interpolates. *)
Inductive message : Type :=
| ErrorInvalidJSON (input_path : string)
| ErrorInputNotFound (input_path : string)
| WarningItemsNotList (input_path : string)
| WarningTracksNotList (user_id : value) (input_path : string)
| WarningNoTrack (user_id : value) (input_path : option string)
| InfoNoFeatures (input_path : string)
| ErrorWrite (output_path : string).

(** What is at a path, as [open(path, 'r')] and [json.load] see it. *)
Inductive file : Type :=
| NotJson               (* [json.load] raises [JSONDecodeError]: a text
                           that is no JSON, an empty or a cut-off file *)
| Json (v : value)      (* [json.load] returns [v]; [json.dump v] wrote it *)
| Unloadable (e : exn). (* [open] or [json.load] raises [e], which is
                           neither [FileNotFoundError] nor
                           [JSONDecodeError]: a directory, a file
                           without the permission to read it, bytes
                           that are no UTF-8, an integer of too many
                           digits, a nesting too deep *)

(** What a write to a path runs into. *)
Inductive fault : Type :=
| OpenFails                     (* [open(path, 'w')] raises [IOError]:
                                   nothing is opened or cut *)
| WriteFails (complete : bool)  (* the file is opened, and cut; then a
                                   write raises [IOError] and leaves a
                                   part of the text, or the close does
                                   and may leave all of it *)
| DumpRaises.                   (* the file is opened, and cut; then
                                   [json.dump] raises [RecursionError],
                                   which is no [IOError] *)

(** The state a call of [process_json_file] works on: the file system
    ([files], and for each path the fault, if any, a write to it runs
    into), the console, and the local list the features are appended
    to. *)
Record state : Type := mkState {
  files : string -> option file;
  unwritable : string -> option fault;
  stdout : list message;
  final_features : list value }.

Inductive result (A : Type) : Type :=
| Normal (a : A)
| Raised (e : exn).
Arguments Raised {A} e.

Definition M (A : Type) : Type := state -> result A * state.

Definition ret {A} (a : A) : M A := fun s => (Normal a, s).

Definition bind {A B} (m : M A) (f : A -> M B) : M B :=
  fun s => match m s with
           | (Normal a, s') => f a s'
           | (Raised e, s') => (Raised e, s')
           end.

Definition raise {A} (e : exn) : M A := fun s => (Raised e, s).

(** An interpreter primitive inside a body. *)
Definition lift {A} (r : exn + A) : M A :=
  match r with
  | inl e => raise e
  | inr a => ret a
  end.

(** [print(...)]. *)
Definition print (m : message) : M unit :=
  fun s => (Normal tt, mkState (files s) (unwritable s) (stdout s ++ [m]) (final_features s)).

(** [final_features = []]. *)
Definition reset_features : M unit :=
  fun s => (Normal tt, mkState (files s) (unwritable s) (stdout s) []).

(** [final_features.append(x)]. *)
Definition append (x : value) : M unit :=
  fun s => (Normal tt, mkState (files s) (unwritable s) (stdout s) (final_features s ++ [x])).

Definition get_features : M (list value) :=
  fun s => (Normal (final_features s), s).

(** [with open(path, 'r') as f: data = json.load(f)] under its two
    [except] clauses: a path without a file is [FileNotFoundError], a
    file that does not parse is [json.JSONDecodeError]; whatever else
    [open] or [json.load] raises is caught by neither clause and
    leaves the function. *)
Inductive loaded : Type :=
| FileNotFound
| JSONDecodeError
| Loaded (data : value).

Definition load (path : string) : M loaded :=
  fun s => match files s path with
           | None => (Normal FileNotFound, s)
           | Some NotJson => (Normal JSONDecodeError, s)
           | Some (Json v) => (Normal (Loaded v), s)
           | Some (Unloadable e) => (Raised e, s)
           end.

(** The file system with [content] at [path]. *)
Definition put (path : string) (content : file) (s : state) : state :=
  mkState (fun p => if String.eqb p path then Some content else files s p)
          (unwritable s) (stdout s) (final_features s).

(** [with open(path, 'w') as f: json.dump(v, f, indent=2)] under its
    [except IOError]: [true] when the document is written, [false] when
    an [IOError] was raised, at [open] with the path as it was, or
    later with the file cut to what was written until then; an
    exception of [json.dump] that is no [IOError] leaves the function,
    and the file cut. *)
Definition dump (path : string) (v : value) : M bool :=
  fun s => match unwritable s path with
           | None => (Normal true, put path (Json v) s)
           | Some OpenFails => (Normal false, s)
           | Some (WriteFails complete) =>
               (Normal false, put path (if complete then Json v else NotJson) s)
           | Some DumpRaises => (Raised RecursionError, put path NotJson s)
           end.

(** [for x in xs: body x].  A body may assign into [x] in place, so it
    returns [x] as it leaves it, and the loop returns the elements as
    the bodies left them. *)
Fixpoint for_each (body : value -> M value) (xs : list value) : M (list value) :=
  match xs with
  | [] => ret []
  | x :: rest =>
      bind (body x) (fun x' =>
      bind (for_each body rest) (fun rest' =>
      ret (x' :: rest')))
  end.

(** [s] after [msgs] were printed and [feats] appended. *)
Definition extend (s : state) (msgs : list message) (feats : list value) : state :=
  mkState (files s) (unwritable s) (stdout s ++ msgs) (final_features s ++ feats).

(** [m] ends in [r] from every state, having printed [msgs] and
    appended [feats] and touched nothing else. *)
Definition emits {A} (m : M A) (r : result A) (msgs : list message) (feats : list value)
    : Prop :=
  forall s, m s = (r, extend s msgs feats).

(** [m] is of that kind: its result, what it prints and what it
    appends do not depend on the state it starts from. *)
Definition writer_like {A} (m : M A) : Prop :=
  exists r msgs feats, emits m r msgs feats.

(** Whenever [m] returns, what it returns satisfies [P]. *)
Definition yields {A} (m : M A) (P : A -> Prop) : Prop :=
  forall s a s', m s = (Normal a, s') -> P a.


End Run.
Import Run.

Declare Scope run_scope.
Delimit Scope run_scope with run.
Notation "x <- m ;; k" := (bind m (fun x => k))
  (at level 61, m at next level, right associativity) : run_scope.
Notation "m ;;; k" := (bind m (fun _ => k))
  (at level 61, right associativity) : run_scope.

Local Open Scope run_scope.

(* ================================================================== *)
(** ** The two scripts *)
(* ================================================================== *)

(** [json.load] builds a tree: every [dict] and [list] of it is a fresh
    object with one owner.  An object of the tree is therefore the
    value at its place, and an assignment into it is passed on as the
    new value of that place: a loop body returns its element as it
    leaves it, and the enclosing code puts the element back where it
    was read ([with_features], [with_tracks], [with_items]).  The
    values a body only reads out of the tree ([item.get("userId")],
    [track_item.get("summary")], the [coordinates], the entries of the
    original [properties]) sit under other keys than anything that is
    assigned to, so they are read off the values as they were. *)

Module Extract.

(** [d] with its binding of [k] as the loop left it; [d] when the loop
    ran over the default [[]] of a missing key. *)
Definition rebind (k : string) (v : value) (x : value) : value :=
  match x with
  | VDict d => if dict_has k d then VDict (dict_set k v d) else x
  | _ => x
  end.

Definition with_features (track_item inner_feature_collection features : value)
    (elements : list value) : value :=
  match features with
  | VList _ => rebind "track" (rebind "features" (VList elements) inner_feature_collection) track_item
  | _ => track_item
  end.

Definition with_tracks (item : value) (tracks : list value) : value :=
  rebind "tracks" (VList tracks) item.

Definition with_items (data : value) (items : list value) : value :=
  rebind "items" (VList items) data.

Section Traversal.

(** The two files differ in the body of the innermost loop, in the
    name of the list ([final_features], [all_multipoint_features]), and
    in whether the "no track" warning names the input file; all else
    of [process_json_file] is the same text in both. *)
Variable feature_body : dict -> value -> value -> M value.
Variable names_path : bool.

(** One [track_item] of [for track_item in tracks]
    (convert_to_geojson.py 53-83, convert_to_multipoint.py 50-86). *)
Definition track_body (input_path : string) (user_id : value) (user_properties : dict)
    (track_item : value) : M value :=
  inner_feature_collection <- lift (get track_item "track" VNone) ;;
  skip <- (if truthy inner_feature_collection
           then (has <- lift (contains "features" inner_feature_collection) ;; ret (negb has))
           else ret true) ;;
  if (skip : bool) then
    print (WarningNoTrack user_id (if names_path then Some input_path else None)) ;;;
    ret track_item
  else
    features <- lift (get inner_feature_collection "features" (VList [])) ;;
    elements <- lift (iter features) ;;
    elements' <- for_each (feature_body user_properties track_item) elements ;;
    ret (with_features track_item inner_feature_collection features elements').

(** One [item] of [for item in items]
    (convert_to_geojson.py 38-83, convert_to_multipoint.py 36-86). *)
Definition item_body (input_path : string) (item : value) : M value :=
  user_id <- lift (get item "userId" VNone) ;;
  age_group <- lift (get item "ageGroup" VNone) ;;
  country_code <- lift (get item "countryCode" VNone) ;;
  gender <- lift (get item "gender" VNone) ;;
  let user_properties :=
    [("userId", user_id); ("ageGroup", age_group);
     ("countryCode", country_code); ("gender", gender)] in
  tracks <- lift (get item "tracks" (VList [])) ;;
  match tracks with
  | VList ts =>
      ts' <- for_each (track_body input_path user_id user_properties) ts ;;
      ret (with_tracks item ts')
  | _ =>
      print (WarningTracksNotList user_id input_path) ;;;
      ret item
  end.

(** From [items = data.get("items", [])] to the end of the loops
    (convert_to_geojson.py 33-83, convert_to_multipoint.py 31-86).
    [None] is the [return False] of the [isinstance] test; [Some] is
    the fall-through, with the tree [data] as the loops left it. *)
Definition traverse (input_path : string) (data : value) : M (option value) :=
  items <- lift (get data "items" (VList [])) ;;
  match items with
  | VList its =>
      its' <- for_each (item_body input_path) its ;;
      ret (Some (with_items data its'))
  | _ =>
      print (WarningItemsNotList input_path) ;;;
      ret None
  end.

Definition feature_collection (features : list value) : value :=
  VDict [("type", VStr "FeatureCollection"); ("features", VList features)].

(** [process_json_file(input_path, output_path)]. *)
Definition process_json_file (input_path output_path : string) : M bool :=
  r <- load input_path ;;
  match r with
  | JSONDecodeError => print (ErrorInvalidJSON input_path) ;;; ret false
  | FileNotFound => print (ErrorInputNotFound input_path) ;;; ret false
  | Loaded data =>
      reset_features ;;;
      t <- traverse input_path data ;;
      match t with
      | None => ret false
      | Some _ =>
          final_features <- get_features ;;
          match final_features with
          | [] => print (InfoNoFeatures input_path) ;;; ret false
          | _ :: _ =>
              let output_geojson := feature_collection final_features in
              written <- dump output_path output_geojson ;;
              if (written : bool) then ret true
              else print (ErrorWrite output_path) ;;; ret false
          end
      end
  end.

End Traversal.

(** The properties of an emitted feature: the feature's own, copied,
    then the user's, then the five of the track
    (convert_to_geojson.py 65-77, convert_to_multipoint.py 64-70). *)
Definition assemble_properties (user_properties : dict) (track_item feature : value) : M value :=
  properties <- lift (get feature "properties" (VDict [])) ;;
  new_properties <- lift (copy properties) ;;
  new_properties <- lift (update new_properties user_properties) ;;
  track_id <- lift (get track_item "trackId" VNone) ;;
  new_properties <- lift (setitem new_properties "trackId" track_id) ;;
  activity <- lift (get track_item "activity" VNone) ;;
  new_properties <- lift (setitem new_properties "activity" activity) ;;
  location_country <- lift (get track_item "locationCountry" VNone) ;;
  new_properties <- lift (setitem new_properties "locationCountry" location_country) ;;
  summary <- lift (get track_item "summary" VNone) ;;
  new_properties <- lift (setitem new_properties "summary" summary) ;;
  resort <- lift (get track_item "resort" VNone) ;;
  new_properties <- lift (setitem new_properties "resort" resort) ;;
  ret new_properties.

End Extract.

(** convert_to_geojson.py *)
Module Geojson.

(** The body of [for feature in ...] (lines 62-83): the feature gets
    the new properties in place and is itself appended. *)
Definition feature_body (user_properties : dict) (track_item feature : value) : M value :=
  new_properties <- Extract.assemble_properties user_properties track_item feature ;;
  feature' <- lift (setitem feature "properties" new_properties) ;;
  append feature' ;;;
  ret feature'.

Definition traverse := Extract.traverse feature_body true.
Definition process_json_file := Extract.process_json_file feature_body true.

End Geojson.

(** convert_to_multipoint.py *)
Module Multipoint.

(** The body of [for feature in ...] (lines 57-86): a new feature is
    built and appended, the feature of the input is only read. *)
Definition feature_body (user_properties : dict) (track_item feature : value) : M value :=
  geometry <- lift (get feature "geometry" (VDict [])) ;;
  geometry_type <- lift (get geometry "type" VNone) ;;
  if negb (eq_str geometry_type "LineString") then ret feature
  else
    track_properties <- Extract.assemble_properties user_properties track_item feature ;;
    geometry' <- lift (getitem feature "geometry") ;;
    coordinates <- lift (get geometry' "coordinates" (VList [])) ;;
    let multipoint_geometry :=
      VDict [("type", VStr "MultiPoint"); ("coordinates", coordinates)] in
    let multipoint_feature :=
      VDict [("type", VStr "Feature"); ("geometry", multipoint_geometry);
             ("properties", track_properties)] in
    append multipoint_feature ;;;
    ret feature.

Definition traverse := Extract.traverse feature_body false.
Definition process_json_file := Extract.process_json_file feature_body false.

End Multipoint.

(* ================================================================== *)
(** ** The input shape and the traversal of the specification *)
(* ================================================================== *)

(** Section 3 of the specification, in its words: a document is a
    mapping whose [items] is a sequence of user records; a user record
    is a mapping whose [tracks] is a sequence of track records (a user
    whose [tracks] is something else is skipped); a track record is a
    mapping whose [track], when there is one, is a mapping that may hold
    a sequence [features] of features; a feature is a mapping whose
    [properties], when there are any, are a mapping and, where the
    geometry is looked into, whose [geometry], when there is one, is a
    mapping. *)

Module Shape.

Definition opt_dict (o : option value) : bool :=
  match o with
  | None | Some (VDict _) => true
  | Some _ => false
  end.

Definition wf_feature (reads_geometry : bool) (feature : value) : bool :=
  match feature with
  | VDict d =>
      opt_dict (dict_get "properties" d)
      && (if reads_geometry then opt_dict (dict_get "geometry" d) else true)
  | _ => false
  end.

Definition wf_track (reads_geometry : bool) (track_item : value) : bool :=
  match track_item with
  | VDict d =>
      match dict_get "track" d with
      | None | Some VNone => true
      | Some (VDict c) =>
          match dict_get "features" c with
          | None => true
          | Some (VList fs) => forallb (wf_feature reads_geometry) fs
          | Some _ => false
          end
      | Some _ => false
      end
  | _ => false
  end.

Definition wf_item (reads_geometry : bool) (item : value) : bool :=
  match item with
  | VDict d =>
      match dict_get "tracks" d with
      | Some (VList ts) => forallb (wf_track reads_geometry) ts
      | _ => true
      end
  | _ => false
  end.

Definition wf_doc (reads_geometry : bool) (data : value) : bool :=
  match data with
  | VDict d =>
      match dict_get "items" d with
      | None => true
      | Some (VList its) => forallb (wf_item reads_geometry) its
      | Some _ => false
      end
  | _ => false
  end.

(** The user records of a document, the track records of a user (none
    for a skipped user), the features of a track (none for a skipped
    track). *)
Definition items_of (data : value) : list value :=
  match data with
  | VDict d => match dict_get "items" d with Some (VList its) => its | _ => [] end
  | _ => []
  end.

Definition tracks_of (item : value) : list value :=
  match item with
  | VDict d => match dict_get "tracks" d with Some (VList ts) => ts | _ => [] end
  | _ => []
  end.

Definition features_of (track_item : value) : list value :=
  match track_item with
  | VDict d =>
      match dict_get "track" d with
      | Some (VDict c) =>
          match dict_get "features" c with Some (VList fs) => fs | _ => [] end
      | _ => []
      end
  | _ => []
  end.

(** A feature in its place: the user record and the track record it
    was found under. *)
Record placed : Type := mkPlaced {
  of_item : value;
  of_track : value;
  the_feature : value }.

(** User-major, then track-major, then feature-major; [eligible] is
    the filter of the variant. *)
Definition traversal (eligible : value -> bool) (data : value) : list placed :=
  flat_map (fun item =>
    flat_map (fun track_item =>
      map (mkPlaced item track_item) (filter eligible (features_of track_item)))
      (tracks_of item))
    (items_of data).

(** A field of a record, [null] when absent. *)
Definition field (k : string) (record : value) : value :=
  match record with
  | VDict d => match dict_get k d with Some v => v | None => VNone end
  | _ => VNone
  end.

Definition user_fields (item : value) : dict :=
  [("userId", field "userId" item); ("ageGroup", field "ageGroup" item);
   ("countryCode", field "countryCode" item); ("gender", field "gender" item)].

Definition track_fields (track_item : value) : dict :=
  [("trackId", field "trackId" track_item); ("activity", field "activity" track_item);
   ("locationCountry", field "locationCountry" track_item);
   ("summary", field "summary" track_item); ("resort", field "resort" track_item)].

Definition original_properties (feature : value) : dict :=
  match feature with
  | VDict d => match dict_get "properties" d with Some (VDict p) => p | _ => [] end
  | _ => []
  end.

(** [base] overlaid with [over]: the bindings of [over], and those of
    [base] for the other keys. *)
Definition overlay (base over : dict) : dict := dict_update base over.

Definition merged_properties (user track : dict) (feature : value) : dict :=
  overlay (overlay (original_properties feature) user) track.

(** Variant A: every feature, with the merged properties in the place
    of its own. *)
Definition eligible_A (feature : value) : bool := true.

Definition emit_A (user : dict) (track_item feature : value) : value :=
  match feature with
  | VDict d =>
      VDict (dict_set "properties"
               (VDict (merged_properties user (track_fields track_item) feature)) d)
  | _ => feature
  end.

(** Variant B: the features whose [geometry.type] is "LineString",
    each as a new MultiPoint feature over the same coordinates. *)
Definition geometry_of (feature : value) : value := field "geometry" feature.

Definition eligible_B (feature : value) : bool :=
  eq_str (field "type" (geometry_of feature)) "LineString".

Definition coordinates_of (feature : value) : value :=
  match geometry_of feature with
  | VDict g => match dict_get "coordinates" g with Some c => c | None => VList [] end
  | _ => VList []
  end.

Definition emit_B (user : dict) (track_item feature : value) : value :=
  VDict [("type", VStr "Feature");
         ("geometry", VDict [("type", VStr "MultiPoint");
                             ("coordinates", coordinates_of feature)]);
         ("properties",
          VDict (merged_properties user (track_fields track_item) feature))].

(** What the traversal prints: one warning per skipped track, one per
    skipped user. *)
Definition has_features (track_item : value) : bool :=
  match track_item with
  | VDict d =>
      match dict_get "track" d with
      | Some (VDict c) => dict_has "features" c
      | _ => false
      end
  | _ => false
  end.

Definition warnings_of_track (w : message) (track_item : value) : list message :=
  if has_features track_item then [] else [w].

Definition warnings_of_item (names_path : bool) (input_path : string) (item : value)
    : list message :=
  let user_id := field "userId" item in
  match item with
  | VDict d =>
      match dict_get "tracks" d with
      | None => []
      | Some (VList ts) =>
          flat_map (warnings_of_track
                      (WarningNoTrack user_id (if names_path then Some input_path else None)))
                   ts
      | Some _ => [WarningTracksNotList user_id input_path]
      end
  | _ => []
  end.

Definition warnings_of (names_path : bool) (input_path : string) (data : value)
    : list message :=
  flat_map (warnings_of_item names_path input_path) (items_of data).

(** The tree as a run leaves it, [post] being what the body of the
    innermost loop leaves of a feature. *)
Definition after_track (post : value -> value) (track_item : value) : value :=
  match track_item with
  | VDict d =>
      match dict_get "track" d with
      | Some (VDict c) =>
          match dict_get "features" c with
          | Some (VList fs) =>
              VDict (dict_set "track"
                       (VDict (dict_set "features" (VList (map post fs)) c)) d)
          | _ => track_item
          end
      | _ => track_item
      end
  | _ => track_item
  end.

Definition after_item (post : dict -> value -> value -> value) (item : value) : value :=
  match item with
  | VDict d =>
      match dict_get "tracks" d with
      | Some (VList ts) =>
          VDict (dict_set "tracks"
                   (VList (map (fun t => after_track (post (user_fields item) t) t) ts)) d)
      | _ => item
      end
  | _ => item
  end.

Definition after_doc (post : dict -> value -> value -> value) (data : value) : value :=
  match data with
  | VDict d =>
      match dict_get "items" d with
      | Some (VList its) => VDict (dict_set "items" (VList (map (after_item post) its)) d)
      | _ => data
      end
  | _ => data
  end.

(** What a variant emits for a placed feature. *)
Definition emitted (emit : dict -> value -> value -> value) (p : placed) : value :=
  emit (user_fields (of_item p)) (of_track p) (the_feature p).

(** Variant B leaves a feature as it is. *)
Definition untouched (user : dict) (track_item feature : value) : value := feature.

(** Section 4 of the specification, for a document whose traversal
    goes through: what [process_json_file] returns and leaves behind
    when [msgs] were printed on the way and [feats] were found. *)
Definition contract (input_path output_path : string) (s : state)
    (msgs : list message) (feats : list value) : result bool * state :=
  let printed := stdout s ++ msgs in
  let found := mkState (files s) (unwritable s) printed feats in
  let failed := ErrorWrite output_path in
  match feats with
  | [] =>
      (Normal false,
       mkState (files s) (unwritable s) (printed ++ [InfoNoFeatures input_path]) [])
  | _ :: _ =>
      match unwritable s output_path with
      | None =>
          (Normal true, put output_path (Json (Extract.feature_collection feats)) found)
      | Some OpenFails =>
          (Normal false, mkState (files s) (unwritable s) (printed ++ [failed]) feats)
      | Some (WriteFails complete) =>
          (Normal false,
           put output_path
               (if complete then Json (Extract.feature_collection feats) else NotJson)
               (mkState (files s) (unwritable s) (printed ++ [failed]) feats))
      | Some DumpRaises => (Raised RecursionError, put output_path NotJson found)
      end
  end.

(** The statements about one emitted feature and the placed feature it
    comes from. *)
Definition has_merged_properties (p : placed) (out : value) : Prop :=
  field "properties" out
  = VDict (merged_properties (user_fields (of_item p)) (track_fields (of_track p))
             (the_feature p)).

Definition relabelled (p : placed) (out : value) : Prop :=
  exists g,
    field "geometry" (the_feature p) = VDict g
    /\ dict_get "type" g = Some (VStr "LineString")
    /\ field "geometry" out
       = VDict [("type", VStr "MultiPoint");
                ("coordinates",
                 match dict_get "coordinates" g with
                 | Some c => c
                 | None => VList []
                 end)].

End Shape.
Import Shape.

(* ================================================================== *)
(** ** Documents the statements are tried on *)
(* ================================================================== *)

Module Examples.

Definition position (x y : Z) : value := VList [VInt x; VInt y].

Definition line_string : value :=
  VDict [("type", VStr "LineString");
         ("coordinates", VList [position 0 0; position 1 1])].

Definition feature (geometry : value) (properties : dict) : value :=
  VDict [("type", VStr "Feature"); ("geometry", geometry);
         ("properties", VDict properties)].

Definition track (track_id : string) (features : value) : value :=
  VDict [("trackId", VStr track_id); ("track", VDict [("features", features)])].

Definition user (user_id : string) (tracks : value) : value :=
  VDict [("userId", VStr user_id); ("tracks", tracks)].

Definition document (items : value) : value := VDict [("items", items)].

(** The example of section 8 of the specification. *)
Definition example_doc : value :=
  document (VList [user "u1" (VList [track "t1" (VList [feature line_string []])])]).

Definition example_properties : dict :=
  [("userId", VStr "u1"); ("ageGroup", VNone); ("countryCode", VNone);
   ("gender", VNone); ("trackId", VStr "t1"); ("activity", VNone);
   ("locationCountry", VNone); ("summary", VNone); ("resort", VNone)].

(** A file system holding [data] at input.json and nothing else, all
    paths writable, nothing printed yet. *)
Definition input_path : string := "input.json".
Definition output_path : string := "output.geojson".

Definition world (content : file) : state :=
  mkState (fun p => if String.eqb p input_path then Some content else None)
          (fun _ => None) [] [].

(** A feature that carries a [trackId] and a [note] of its own. *)
Definition own_properties : dict := [("trackId", VStr "mine"); ("note", VStr "n")].

Definition two_users_doc : value :=
  document (VList
    [user "u1" (VList [track "t1" (VList [feature line_string own_properties;
                                          feature (VDict [("type", VStr "Point")]) []])]);
     user "u2" (VList [track "t2" (VList [feature line_string []]);
                       track "t3" (VList [feature line_string []])])]).

(** [items] that is not a sequence. *)
Definition items_not_list_doc : value := document (VDict [("a", VInt 1)]).

(** No [items] at all. *)
Definition no_items_doc : value := VDict [("version", VInt 1)].

(** Nothing to emit: a user without tracks, a user whose only track
    has no [track]. *)
Definition all_skipped_doc : value :=
  document (VList [VDict [("userId", VStr "u1")];
                   user "u2" (VList [VDict [("trackId", VStr "t1")]])]).



(** Shapes outside section 3: [features] bound to null; a feature whose
    [geometry] is null; a document that is a list. *)
Definition features_null_doc : value :=
  document (VList [user "u1" (VList [track "t1" VNone])]).

Definition geometry_null_doc : value :=
  document (VList [user "u1" (VList [track "t1" (VList [feature VNone []])])]).

Definition top_level_list_doc : value := VList [].

(** A [track] that is a number; [features] that is a mapping. *)
Definition track_number_doc : value :=
  document (VList [user "u1" (VList [VDict [("trackId", VStr "t1"); ("track", VInt 5)]])]).

Definition features_mapping_doc : value :=
  document (VList [user "u1" (VList [track "t1" (VDict [("a", VInt 1)])])]).

End Examples.

(* ================================================================== *)
(** ** The two variants side by side *)
(* ================================================================== *)

Module Variants.

(** The nine keys the bodies assign, in the order they assign them
    (convert_to_geojson.py 41-46 and 71-77). *)
Definition metadata_keys : list string :=
  ["userId"; "ageGroup"; "countryCode"; "gender";
   "trackId"; "activity"; "locationCountry"; "summary"; "resort"].

Definition keys (d : dict) : list string := map fst d.

(** What Variant B makes of a feature as Variant A emits it. *)
Definition to_multipoint (feature : value) : value :=
  VDict [("type", VStr "Feature");
         ("geometry", VDict [("type", VStr "MultiPoint");
                             ("coordinates", coordinates_of feature)]);
         ("properties", field "properties" feature)].

(** The members of an emitted feature against those of its source. *)
Definition keeps_members (p : placed) (out : value) : Prop :=
  exists fd od,
    the_feature p = VDict fd /\ out = VDict od
    /\ keys od = (if dict_has "properties" fd then keys fd else keys fd ++ ["properties"])
    /\ forall k, k <> "properties" -> dict_get k od = dict_get k fd.

Definition three_members (out : value) : Prop :=
  exists geometry properties,
    out = VDict [("type", VStr "Feature"); ("geometry", geometry);
                 ("properties", properties)].

(** The keys of the properties of an emitted feature: those of the
    source, in their order, then the assigned ones the source did not
    have, in the order of assignment. *)
Definition keeps_keys (p : placed) (out : value) : Prop :=
  exists props,
    field "properties" out = VDict props
    /\ keys props
       = keys (original_properties (the_feature p))
         ++ filter (fun k => negb (dict_has k (original_properties (the_feature p))))
                   metadata_keys.

(** The document [process_json_file] writes for the features [feats]. *)
Definition written_document (feats : list value) : file :=
  Json (VDict [("type", VStr "FeatureCollection"); ("features", VList feats)]).

(** A call that leaves every file but the output file as it was; that
    touches the output file only when it found features and could open
    the file; that has written a FeatureCollection with at least one
    feature when it returns [True]; and that, the output file being
    writable without a fault, leaves it as it was too when it does not
    return [True]. *)
Definition only_output_written (output_path : string) (s : state)
    (run : result bool * state) : Prop :=
  (forall p, p <> output_path -> files (snd run) p = files s p)
  /\ (files (snd run) output_path <> files s output_path ->
      unwritable s output_path <> Some OpenFails /\ final_features (snd run) <> [])
  /\ (fst run = Normal true ->
      exists x rest,
        final_features (snd run) = x :: rest
        /\ files (snd run) output_path = Some (written_document (x :: rest)))
  /\ (unwritable s output_path = None -> fst run <> Normal true ->
      files (snd run) = files s).





(** A call that found nothing to write in the file at [path]. *)
Definition nothing_found (path : string) (s : state) : result bool * state :=
  (Normal false,
   mkState (files s) (unwritable s) (stdout s ++ [InfoNoFeatures path]) []).

(** Two calls that end the same way: the same result, the same lines
    printed, and the same output file when one was written. *)
Definition same_run (output_path : string) (s1 s2 : state)
    (run1 run2 : result bool * state) : Prop :=
  fst run1 = fst run2
  /\ (exists msgs,
        stdout (snd run1) = stdout s1 ++ msgs /\ stdout (snd run2) = stdout s2 ++ msgs)
  /\ (fst run1 = Normal true ->
      files (snd run1) output_path = files (snd run2) output_path).

End Variants.
Import Variants.

(* ================================================================== *)
(** ** File names *)
(* ================================================================== *)

Module Paths.

(** [c.lower()] for a character of a file name.  A name is a string of
    bytes here, a character outside ASCII being bytes above 127, which
    are left as they are.  [str.lower] maps no character outside ASCII
    to one of the characters of ".json" or ".geojson" (the Kelvin sign
    gives "k", the dotted capital I gives "i" and a combining dot), so
    the two suffix tests below see what the source sees. *)
Definition lower_char (c : ascii) : ascii :=
  let n := nat_of_ascii c in
  if ((65 <=? n) && (n <=? 90))%nat then ascii_of_nat (n + 32) else c.

Fixpoint lower (s : string) : string :=
  match s with
  | EmptyString => EmptyString
  | String c rest => String (lower_char c) (lower rest)
  end.

(** [s.endswith(suffix)]: [suffix] is [s] or the end of a tail of [s]. *)
Fixpoint endswith (s suffix : string) : bool :=
  if String.eqb s suffix then true
  else match s with
       | EmptyString => false
       | String _ rest => endswith rest suffix
       end.

(** [p.rfind(c)]: the index of the last [c] of [p]. *)
Fixpoint rfind (c : ascii) (p : string) : option nat :=
  match p with
  | EmptyString => None
  | String a rest =>
      match rfind c rest with
      | Some i => Some (S i)
      | None => if Ascii.eqb a c then Some 0%nat else None
      end
  end.

(** [(p[:i], p[i:])]. *)
Fixpoint split_at (i : nat) (p : string) : string * string :=
  match i, p with
  | S i', String a rest => let (l, r) := split_at i' rest in (String a l, r)
  | _, _ => (EmptyString, p)
  end.

Fixpoint all_dots (p : string) : bool :=
  match p with
  | EmptyString => true
  | String a rest => Ascii.eqb a "." && all_dots rest
  end.

(** [os.path.splitext(p)] for a name out of [os.listdir], which holds
    no separator of its platform: the extension starts at the last
    dot, unless only dots come before that dot (or there is no dot),
    and then there is no extension. *)
Definition splitext (p : string) : string * string :=
  match rfind "." p with
  | None => (p, EmptyString)
  | Some i =>
      if all_dots (fst (split_at i p)) then (p, EmptyString) else split_at i p
  end.

(** The filter of the two converters (convert_to_geojson.py 128,
    convert_to_multipoint.py 125) and that of the heat map script
    (create_heatmap_cli.py 81). *)
Definition is_json (filename : string) : bool := endswith (lower filename) ".json".

Definition is_geojson (file : string) : bool := endswith (lower file) ".geojson".

(** [f"{base_name}.geojson"] and [f"{base_name}_multipoint.geojson"]
    for [base_name = os.path.splitext(filename)[0]]. *)
Definition output_filename (suffix filename : string) : string :=
  (fst (splitext filename) ++ suffix)%string.

End Paths.
Import Paths.

(* ================================================================== *)
(** ** The batch drivers *)
(* ================================================================== *)

Module Batch.

(** What a driver run prints: the lines of [process_json_file], and
    its own; each constructor of its own is one [print] of the driver
    and carries what it interpolates ([OutputSavedIn] prints the
    absolute path of the directory it carries). *)
Inductive line : Type :=
| Script (m : message)
| ErrorInputDir (input_dir : string)
| OutputSavedIn (output_dir : string)
| Processing (filename : string)
| ConvertedTo (output_filename : string)
| FailedToConvert (filename : string)
| SummaryHeader
| TotalFound (file_count : Z)
| SuccessfullyConverted (success_count : Z)
| FailedOrSkipped (failed : Z)
| SummaryFooter.

(** The file system and the console of a driver run: the files, each
    with what [open] and [json.load] make of it; for each path the
    fault, if any, of a write to it when it can be opened; the
    directory each path lies in; the directories; for each directory
    the names [os.listdir] gives, in the order it gives them, unless it
    raises; for each directory that [os.makedirs] makes, the names
    [os.listdir] gives afterwards (a new directory is a new name in
    the one it lies in, where the platform lists it); and the paths
    [os.makedirs] cannot make. *)
Record os : Type := mkOs {
  os_files : string -> option file;
  os_fault : string -> option fault;
  os_dirname : string -> string;
  os_isdir : string -> bool;
  os_listdir : string -> list string;
  os_made : string -> string -> list string;
  os_unlistable : string -> bool;
  os_unmakeable : string -> bool;
  console : list line }.

(** What [open] for reading and [json.load] make of a path: on a
    directory [open] raises [IsADirectoryError], an [OSError] that is
    no [FileNotFoundError]. *)
Definition os_read (w : os) (p : string) : option file :=
  if os_isdir w p then Some (Unloadable OSError) else os_files w p.

(** A write to a directory, or to a path whose directory is not
    there, fails at [open], with [IsADirectoryError] or
    [FileNotFoundError], which are [IOError]s. *)
Definition os_unwritable (w : os) (p : string) : option fault :=
  if os_isdir w p then Some OpenFails
  else if os_isdir w (os_dirname w p) then os_fault w p
  else Some OpenFails.

Inductive failure : Type :=
| ScriptError (e : exn)       (* an exception out of [process_json_file] *)
| FileExistsError             (* [os.makedirs] on the path of a file *)
| MakedirsError               (* [os.makedirs] raises another [OSError] *)
| ListdirError.               (* [os.listdir] raises an [OSError] *)

(** How a driver ends: it returns, [sys.exit(code)], or an exception
    leaves it. *)
Inductive outcome (A : Type) : Type :=
| Done (a : A)
| Exit (code : Z)
| Abort (e : failure).
Arguments Exit {A} code.
Arguments Abort {A} e.

Definition say (l : line) (w : os) : os :=
  mkOs (os_files w) (os_fault w) (os_dirname w) (os_isdir w) (os_listdir w)
       (os_made w) (os_unlistable w) (os_unmakeable w) (console w ++ [l]).

(** [os.makedirs(d, exist_ok=True)]: nothing to do for a directory,
    [FileExistsError] for a file, another [OSError] where it cannot
    make the directory; else the directory is there afterwards (and
    so are its ancestors that were missing, which nothing here looks
    at), the paths that lie in it can be written to, and the listings
    are those with the new directory. *)
Definition makedirs (d : string) (w : os) : failure + os :=
  if os_isdir w d then inr w
  else match os_files w d with
       | Some _ => inl FileExistsError
       | None =>
           if os_unmakeable w d then inl MakedirsError
           else inr (mkOs (os_files w) (os_fault w) (os_dirname w)
                          (fun p => if String.eqb p d then true else os_isdir w p)
                          (os_made w d) (os_made w)
                          (os_unlistable w) (os_unmakeable w) (console w))
       end.

(** A call of [process_json_file] from the driver: on the files as
    they are, with a list of features of its own; what it prints goes
    to the console, what it writes stays written.  A directory is read
    as a path [open] fails on and is not written to, so it stays what
    it was. *)
Definition call (process : string -> string -> M bool) (input_filepath output_filepath : string)
    (w : os) : result bool * os :=
  let (r, s) := process input_filepath output_filepath
                  (mkState (os_read w) (os_unwritable w) [] []) in
  (r, mkOs (fun p => if os_isdir w p then os_files w p else files s p)
           (os_fault w) (os_dirname w) (os_isdir w) (os_listdir w) (os_made w)
           (os_unlistable w) (os_unmakeable w) (console w ++ map Script (stdout s))).

Section Driver.

(** [os.path.join], of the platform. *)
Variable join : string -> string -> string.

(** The two drivers differ in the [process_json_file] they call and
    in the suffix of the output name. *)
Variable process : string -> string -> M bool.
Variable suffix : string.

(** [for filename in os.listdir(input_dir): ...]
    (convert_to_geojson.py 127-142, convert_to_multipoint.py 124-139),
    over the names still to come, with the two counters. *)
Fixpoint convert_loop (input_dir output_dir : string) (names : list string)
    (file_count success_count : Z) (w : os) : outcome (Z * Z) * os :=
  match names with
  | [] => (Done (file_count, success_count), w)
  | filename :: rest =>
      if endswith (lower filename) ".json" then
        let file_count := (file_count + 1)%Z in
        let input_filepath := join input_dir filename in
        let base_name := fst (splitext filename) in
        let output_filename := (base_name ++ suffix)%string in
        let output_filepath := join output_dir output_filename in
        let w := say (Processing filename) w in
        match call process input_filepath output_filepath w with
        | (Normal true, w) =>
            let w := say (ConvertedTo output_filename) w in
            convert_loop input_dir output_dir rest file_count (success_count + 1)%Z w
        | (Normal false, w) =>
            let w := say (FailedToConvert filename) w in
            convert_loop input_dir output_dir rest file_count success_count w
        | (Raised e, w) => (Abort (ScriptError e), w)
        end
      else convert_loop input_dir output_dir rest file_count success_count w
  end.

(** [convert_directory_to_geojson(input_dir, output_dir)] and
    [convert_directory_to_multipoint(input_dir, output_dir)]. *)
Definition convert_directory (input_dir output_dir : string) (w : os) : outcome unit * os :=
  if negb (os_isdir w input_dir) then
    (Exit 1, say (ErrorInputDir input_dir) w)
  else
    match makedirs output_dir w with
    | inl e => (Abort e, w)
    | inr w =>
        let w := say (OutputSavedIn output_dir) w in
        if os_unlistable w input_dir then (Abort ListdirError, w)
        else
          match convert_loop input_dir output_dir (os_listdir w input_dir) 0 0 w with
          | (Done (file_count, success_count), w) =>
              let w := say SummaryHeader w in
              let w := say (TotalFound file_count) w in
              let w := say (SuccessfullyConverted success_count) w in
              let w := say (FailedOrSkipped (file_count - success_count)) w in
              let w := say SummaryFooter w in
              (Done tt, w)
          | (Exit code, w) => (Exit code, w)
          | (Abort e, w) => (Abort e, w)
          end
    end.

End Driver.

Definition convert_directory_to_geojson (join : string -> string -> string) :=
  convert_directory join Geojson.process_json_file ".geojson".

Definition convert_directory_to_multipoint (join : string -> string -> string) :=
  convert_directory join Multipoint.process_json_file "_multipoint.geojson".

(** The five lines of the summary. *)
Definition summary (file_count success_count : Z) : list line :=
  [SummaryHeader; TotalFound file_count; SuccessfullyConverted success_count;
   FailedOrSkipped (file_count - success_count)%Z; SummaryFooter].

(** What a run prints for one file: the name, what [process_json_file]
    printed, and how it went. *)
Record block : Type := mkBlock {
  block_name : string;
  block_lines : list message;
  block_ok : bool }.

Definition render (suffix : string) (b : block) : list line :=
  Processing (block_name b)
  :: map Script (block_lines b)
  ++ [if block_ok b then ConvertedTo (output_filename suffix (block_name b))
      else FailedToConvert (block_name b)].

(** The names a run goes through: those that pass the filter in the
    listing of the input directory, read once the output directory is
    there. *)
Definition listed (input_dir output_dir : string) (w : os) : list string :=
  match makedirs output_dir w with
  | inr ready => filter is_json (os_listdir ready input_dir)
  | inl _ => []
  end.

(** [p] is not the output path of any of [names]. *)
Definition no_output_of (join : string -> string -> string) (suffix output_dir : string)
    (names : list string) (p : string) : Prop :=
  forall filename,
    In filename names -> p <> join output_dir (output_filename suffix filename).

(** A run that reached its end: after the line about the output
    directory it printed one block for each name it goes through, in
    the order of the listing, and then the summary, whose total is the
    number of these names and whose successes are the blocks that end
    in "converted". *)
Definition accounted (suffix input_dir output_dir : string) (w : os)
    (run : outcome unit * os) : Prop :=
  exists blocks,
    map block_name blocks = listed input_dir output_dir w
    /\ console (snd run)
       = console w ++ [OutputSavedIn output_dir]
         ++ flat_map (render suffix) blocks
         ++ summary (Z.of_nat (List.length blocks))
                    (Z.of_nat (List.length (filter block_ok blocks))).


(** A run that wrote, if anything, only output files of the names it
    goes through. *)
Definition wrote_only_outputs (join : string -> string -> string) (suffix : string)
    (input_dir output_dir : string) (w : os) (run : outcome unit * os) : Prop :=
  forall p,
    no_output_of join suffix output_dir (listed input_dir output_dir w) p ->
    os_files (snd run) p = os_files w p.


(** [filename] is converted when its file is processed on the file
    system [w], whatever else the run does. *)
Definition converts_alone (join : string -> string -> string)
    (process : string -> string -> M bool) (suffix input_dir output_dir : string)
    (w : os) (filename : string) : bool :=
  match fst (call process (join input_dir filename)
               (join output_dir (output_filename suffix filename)) w) with
  | Normal true => true
  | _ => false
  end.

(** No output file of the run is an input file of the run. *)
Definition no_overwrite (join : string -> string -> string) (suffix : string)
    (input_dir output_dir : string) (names : list string) : Prop :=
  forall f f',
    In f names -> In f' names ->
    join output_dir (output_filename suffix f) <> join input_dir f'.

(** A run that reached its end with as successes the names that
    convert alone on the file system [ready], which is the one the run
    began on once the output directory is there. *)
Definition tally_of_alone (join : string -> string -> string)
    (process : string -> string -> M bool) (suffix input_dir output_dir : string)
    (w : os) (run : outcome unit * os) : Prop :=
  exists ready blocks,
    makedirs output_dir w = inr ready
    /\ map block_name blocks = listed input_dir output_dir w
    /\ map block_ok blocks
       = map (converts_alone join process suffix input_dir output_dir ready)
             (listed input_dir output_dir w)
    /\ console (snd run)
       = console w ++ [OutputSavedIn output_dir]
         ++ flat_map (render suffix) blocks
         ++ summary (Z.of_nat (List.length blocks))
                    (Z.of_nat (List.length (filter block_ok blocks))).

End Batch.
Import Batch.

(* ================================================================== *)
(** ** The file finder of the heat map script *)
(* ================================================================== *)

Module Heatmap.

(** [find_geojson_files(folder_path)] (create_heatmap_cli.py 77-83),
    over what [os.walk(folder_path)] yields: for each directory its
    path, the names of its subdirectories and the names of its
    files. *)
Definition find_geojson_files (join : string -> string -> string)
    (walk : list (string * list string * list string)) : list string :=
  flat_map (fun entry =>
              match entry with
              | (root, _, files) =>
                  map (join root) (filter (fun file => endswith (lower file) ".geojson") files)
              end)
           walk.

End Heatmap.

(* ================================================================== *)
(** ** Directories the statements are tried on *)
(* ================================================================== *)

Module BatchExamples.

Import Examples.

(** A join for the examples: the two parts and a slash; and the
    directory of a path: what is before its last slash. *)
Definition slash (a b : string) : string := (a ++ "/" ++ b)%string.

Definition before_slash (p : string) : string :=
  match rfind "/" p with
  | Some i => fst (split_at i p)
  | None => EmptyString
  end.

(** in/ holds a good document, a text file that is not a document, a
    file that is not JSON, and a document without features; out/ is
    not there yet. *)
Definition listing : list string := ["a.json"; "notes.txt"; "B.JSON"; "c.json"].

Definition machine (a b c : file) : os :=
  mkOs (fun p => if String.eqb p "in/a.json" then Some a
                 else if String.eqb p "in/B.JSON" then Some b
                 else if String.eqb p "in/c.json" then Some c
                 else None)
       (fun _ => None)
       before_slash
       (fun p => String.eqb p "in")
       (fun p => if String.eqb p "in" then listing else [])
       (fun _ p => if String.eqb p "in" then listing else [])
       (fun _ => false)
       (fun _ => false)
       [].

Definition good_machine : os :=
  machine (Json example_doc) NotJson (Json all_skipped_doc).




End BatchExamples.

(* ================================================================== *)
(** ** Dictionaries *)
(* ================================================================== *)

Lemma dict_get_set_same (k : string) (v : value) (d : dict) :
  dict_get k (dict_set k v d) = Some v.
Proof.
  induction d as [|[k' v'] rest IH]; simpl.
  - now rewrite String.eqb_refl.
  - destruct (String.eqb k k') eqn:E; simpl; rewrite E; [reflexivity | exact IH].
Qed.

Lemma dict_get_set_other (k k' : string) (v : value) (d : dict) :
  k <> k' -> dict_get k' (dict_set k v d) = dict_get k' d.
Proof.
  intros Hne. induction d as [|[k0 v0] rest IH]; simpl.
  - destruct (String.eqb k' k) eqn:E; [|reflexivity].
    apply String.eqb_eq in E. congruence.
  - destruct (String.eqb k k0) eqn:E; simpl.
    + apply String.eqb_eq in E. subst k0.
      destruct (String.eqb k' k) eqn:E'; [|reflexivity].
      apply String.eqb_eq in E'. congruence.
    + now rewrite IH.
Qed.

(** Assigning the value a key already has changes nothing. *)
Lemma dict_set_get (k : string) (v : value) (d : dict) :
  dict_get k d = Some v -> dict_set k v d = d.
Proof.
  induction d as [|[k' v'] rest IH]; simpl; [discriminate|].
  destruct (String.eqb k k') eqn:E.
  - intros [= ->]. reflexivity.
  - intros H. now rewrite IH.
Qed.

Lemma dict_get_update (k : string) (over : dict) :
  NoDup (map fst over) ->
  forall base,
    dict_get k (dict_update base over)
    = match dict_get k over with Some v => Some v | None => dict_get k base end.
Proof.
  unfold dict_update.
  induction over as [|[k' v'] rest IH]; simpl; intros Hnd base; [reflexivity|].
  inversion Hnd as [|? ? Hnotin Hnd']; subst.
  rewrite (IH Hnd').
  destruct (String.eqb k k') eqn:E.
  - apply String.eqb_eq in E. subst k'.
    assert (Hnone : dict_get k rest = None).
    { clear -Hnotin. induction rest as [|[k0 v0] r IHr]; simpl; [reflexivity|].
      destruct (String.eqb k k0) eqn:E0.
      - apply String.eqb_eq in E0. subst. exfalso. apply Hnotin. now left.
      - apply IHr. intros Hin. apply Hnotin. now right. }
    rewrite Hnone. apply dict_get_set_same.
  - destruct (dict_get k rest); [reflexivity|].
    apply dict_get_set_other. intros ->. now rewrite String.eqb_refl in E.
Qed.

Lemma rebind_get (k : string) (v default x : value) :
  get x k default = inr v -> Extract.rebind k v x = x.
Proof.
  destruct x; simpl; try discriminate.
  unfold dict_has. destruct (dict_get k kvs) eqn:E; [|reflexivity].
  intros [= ->]. now rewrite (dict_set_get _ _ E).
Qed.

(* ================================================================== *)
(** ** Runs that only print and append *)
(* ================================================================== *)

Lemma extend_nil (s : state) : extend s [] [] = s.
Proof. destruct s. unfold extend. simpl. now rewrite !app_nil_r. Qed.

Lemma extend_extend (s : state) l1 f1 l2 f2 :
  extend (extend s l1 f1) l2 f2 = extend s (l1 ++ l2) (f1 ++ f2).
Proof. unfold extend. simpl. now rewrite !app_assoc. Qed.

Lemma emits_ret {A} (a : A) : emits (ret a) (Normal a) [] [].
Proof. intros s. unfold ret. now rewrite extend_nil. Qed.

Lemma emits_raise {A} (e : exn) : emits (@raise A e) (Raised e) [] [].
Proof. intros s. unfold raise. now rewrite extend_nil. Qed.

Lemma emits_lift {A} (r : exn + A) :
  emits (lift r) (match r with inl e => Raised e | inr a => Normal a end) [] [].
Proof. destruct r; [apply emits_raise | apply emits_ret]. Qed.

Lemma emits_print (m : message) : emits (print m) (Normal tt) [m] [].
Proof. intros s. unfold print, extend. now rewrite app_nil_r. Qed.

Lemma emits_append (x : value) : emits (append x) (Normal tt) [] [x].
Proof. intros s. unfold append, extend. now rewrite app_nil_r. Qed.

Lemma emits_bind {A B} (m : M A) (k : A -> M B) a l1 f1 r l2 f2 l f :
  emits m (Normal a) l1 f1 -> emits (k a) r l2 f2 ->
  l = l1 ++ l2 -> f = f1 ++ f2 ->
  emits (bind m k) r l f.
Proof.
  intros Hm Hk -> -> s. unfold bind. rewrite Hm, Hk. now rewrite extend_extend.
Qed.

Lemma emits_bind_raised {A B} (m : M A) (k : A -> M B) e l f :
  emits m (Raised e) l f -> emits (bind m k) (Raised e) l f.
Proof. intros Hm s. unfold bind. now rewrite Hm. Qed.

(** A primitive that succeeds, then the rest. *)
Lemma emits_lift_bind {A B} (p : exn + A) (k : A -> M B) a r l f :
  p = inr a -> emits (k a) r l f -> emits (bind (lift p) k) r l f.
Proof.
  intros -> Hk s. unfold bind, lift, ret. apply Hk.
Qed.

Lemma emits_det {A} (m : M A) r1 l1 f1 r2 l2 f2 :
  emits m r1 l1 f1 -> emits m r2 l2 f2 -> r1 = r2 /\ l1 = l2 /\ f1 = f2.
Proof.
  intros H1 H2.
  pose (s0 := mkState (fun _ => None) (fun _ => None) [] []).
  specialize (H1 s0). specialize (H2 s0). rewrite H1 in H2.
  unfold extend in H2. simpl in H2. now inversion H2.
Qed.

(** A loop whose bodies only print and append does the same, body
    after body. *)
Lemma emits_for_each (body : value -> M value) (post : value -> value)
    (msgs : value -> list message) (feats : value -> list value) (xs : list value) :
  Forall (fun x => emits (body x) (Normal (post x)) (msgs x) (feats x)) xs ->
  emits (for_each body xs) (Normal (map post xs)) (flat_map msgs xs) (flat_map feats xs).
Proof.
  induction 1 as [|x rest Hx _ IH]; simpl.
  - apply emits_ret.
  - eapply emits_bind; [exact Hx | | reflexivity | reflexivity].
    eapply emits_bind; [exact IH | apply emits_ret | |]; now rewrite app_nil_r.
Qed.

(** One step of a body: a primitive that succeeds, a [print], an
    [append], a [ret]. *)
Ltac step :=
  lazymatch goal with
  | |- emits (bind (lift _) _) _ _ _ =>
      eapply emits_lift_bind; [simpl; reflexivity|]
  | |- emits (bind (print _) _) _ _ _ =>
      eapply emits_bind; [apply emits_print | | |]
  | |- emits (bind (append _) _) _ _ _ =>
      eapply emits_bind; [apply emits_append | | |]
  | |- emits (bind (ret _) _) _ _ _ =>
      eapply emits_bind; [apply emits_ret | | |]
  | |- emits (ret _) _ _ _ => apply emits_ret
  end.

Ltac steps := repeat (simpl; step); try reflexivity.

(* ================================================================== *)
(** ** The traversal on a well-formed document *)
(* ================================================================== *)

Lemma flat_map_filter {A B} (p : A -> bool) (f : A -> B) (xs : list A) :
  flat_map (fun x => if p x then [f x] else []) xs = map f (filter p xs).
Proof.
  induction xs as [|x rest IH]; simpl; [reflexivity|].
  destruct (p x); simpl; now rewrite IH.
Qed.

Lemma flat_map_nil {A B} (xs : list A) : flat_map (fun _ => @nil B) xs = [].
Proof. induction xs; simpl; auto. Qed.

Lemma map_flat_map {A B C} (g : B -> C) (f : A -> list B) (xs : list A) :
  map g (flat_map f xs) = flat_map (fun x => map g (f x)) xs.
Proof.
  induction xs as [|x rest IH]; simpl; [reflexivity|].
  now rewrite map_app, IH.
Qed.

Section Generic.

Variable feature_body : dict -> value -> value -> M value.
Variables names_path reads_geometry : bool.
Variable eligible : value -> bool.
Variables emit post : dict -> value -> value -> value.

(** What the body of the innermost loop does on a well-formed feature
    of a track record. *)
Hypothesis feature_body_wf : forall user td feature,
  wf_feature reads_geometry feature = true ->
  emits (feature_body user (VDict td) feature)
        (Normal (post user (VDict td) feature)) []
        (if eligible feature then [emit user (VDict td) feature] else []).

Lemma track_body_wf input_path user_id user track_item :
  wf_track reads_geometry track_item = true ->
  emits (Extract.track_body feature_body names_path input_path user_id user track_item)
        (Normal (after_track (post user track_item) track_item))
        (warnings_of_track
           (WarningNoTrack user_id (if names_path then Some input_path else None))
           track_item)
        (map (emit user track_item) (filter eligible (features_of track_item))).
Proof.
  destruct track_item as [| | | | | |d]; try discriminate.
  unfold wf_track, Extract.track_body, warnings_of_track, has_features,
    features_of, after_track.
  simpl get.
  destruct (dict_get "track" d) as [inner|] eqn:Etrack.
  2:{ intros _. steps. }
  destruct inner as [| | | | | |c]; try discriminate.
  { intros _. steps. }
  simpl contains. unfold dict_has.
  destruct (dict_get "features" c) as [features|] eqn:Efeat.
  2:{ intros _. step. destruct (truthy (VDict c)).
      - eapply emits_bind; [steps | | reflexivity | reflexivity].
        unfold dict_has. rewrite Efeat. steps.
      - steps. }
  assert (Htruthy : truthy (VDict c) = true).
  { destruct c; [discriminate | reflexivity]. }
  destruct features as [| | | | |fs|]; try discriminate.
  intros Hfs. step. rewrite Htruthy.
  eapply emits_bind; [steps | | reflexivity | reflexivity].
  unfold dict_has. rewrite Efeat. simpl negb. cbv iota.
  eapply emits_lift_bind; [simpl; rewrite Efeat; reflexivity|].
  step.
  eapply emits_bind.
  - apply emits_for_each
      with (post := post user (VDict d)) (msgs := fun _ => [])
           (feats := fun f => if eligible f then [emit user (VDict d) f] else []).
    rewrite forallb_forall in Hfs. apply Forall_forall. intros f Hf.
    apply feature_body_wf. now apply Hfs.
  - unfold Extract.with_features, Extract.rebind, dict_has.
    rewrite Efeat, Etrack. apply emits_ret.
  - now rewrite flat_map_nil.
  - now rewrite app_nil_r, flat_map_filter.
Qed.

Lemma item_body_wf input_path item :
  wf_item reads_geometry item = true ->
  emits (Extract.item_body feature_body names_path input_path item)
        (Normal (after_item post item))
        (warnings_of_item names_path input_path item)
        (flat_map (fun t => map (emit (user_fields item) t) (filter eligible (features_of t)))
                  (tracks_of item)).
Proof.
  destruct item as [| | | | | |d]; try discriminate.
  unfold wf_item, Extract.item_body, warnings_of_item, tracks_of, after_item.
  destruct (dict_get "tracks" d) as [tracks|] eqn:Etracks.
  2:{ intros _. do 5 step. rewrite Etracks. steps.
      unfold dict_has. rewrite Etracks. apply emits_ret. }
  destruct tracks as [| | | | |ts|];
    try solve [intros _; do 5 step; rewrite Etracks; steps].
  intros Hts. do 5 step. rewrite Etracks.
  change (match dict_get "userId" d with Some v => v | None => VNone end)
    with (field "userId" (VDict d)).
  change (match dict_get "ageGroup" d with Some v => v | None => VNone end)
    with (field "ageGroup" (VDict d)).
  change (match dict_get "countryCode" d with Some v => v | None => VNone end)
    with (field "countryCode" (VDict d)).
  change (match dict_get "gender" d with Some v => v | None => VNone end)
    with (field "gender" (VDict d)).
  fold (user_fields (VDict d)).
  eapply emits_bind.
  - apply emits_for_each
      with (post := fun t => after_track (post (user_fields (VDict d)) t) t)
           (msgs := warnings_of_track
                      (WarningNoTrack (field "userId" (VDict d))
                         (if names_path then Some input_path else None)))
           (feats := fun t => map (emit (user_fields (VDict d)) t)
                                  (filter eligible (features_of t))).
    rewrite forallb_forall in Hts. apply Forall_forall. intros t Ht.
    apply track_body_wf. now apply Hts.
  - unfold Extract.with_tracks, Extract.rebind, dict_has. rewrite Etracks.
    apply emits_ret.
  - now rewrite app_nil_r.
  - now rewrite app_nil_r.
Qed.

Lemma traverse_wf input_path data :
  wf_doc reads_geometry data = true ->
  emits (Extract.traverse feature_body names_path input_path data)
        (Normal (Some (after_doc post data)))
        (warnings_of names_path input_path data)
        (map (emitted emit) (traversal eligible data)).
Proof.
  destruct data as [| | | | | |d]; try discriminate.
  unfold wf_doc, Extract.traverse, warnings_of, traversal, items_of, after_doc.
  destruct (dict_get "items" d) as [items|] eqn:Eitems.
  2:{ intros _. step. rewrite Eitems. steps.
      unfold dict_has. rewrite Eitems. apply emits_ret. }
  destruct items as [| | | | |its|]; try discriminate.
  intros Hits. step. rewrite Eitems.
  eapply emits_bind.
  - apply emits_for_each
      with (post := after_item post)
           (msgs := warnings_of_item names_path input_path)
           (feats := fun item =>
              flat_map (fun t => map (emit (user_fields item) t)
                                     (filter eligible (features_of t)))
                       (tracks_of item)).
    rewrite forallb_forall in Hits. apply Forall_forall. intros item Hitem.
    apply item_body_wf. now apply Hits.
  - unfold Extract.with_items, Extract.rebind, dict_has. rewrite Eitems.
    apply emits_ret.
  - now rewrite app_nil_r.
  - rewrite app_nil_r, map_flat_map. apply flat_map_ext. intros item.
    rewrite map_flat_map. apply flat_map_ext. intros t.
    now rewrite map_map.
Qed.

End Generic.

(* ================================================================== *)
(** ** The two bodies on a well-formed feature *)
(* ================================================================== *)

Lemma assemble_properties_wf user td feature rg :
  wf_feature rg feature = true ->
  emits (Extract.assemble_properties user (VDict td) feature)
        (Normal (VDict (merged_properties user (track_fields (VDict td)) feature)))
        [] [].
Proof.
  destruct feature as [| | | | | |fd]; try discriminate.
  unfold wf_feature, Extract.assemble_properties, merged_properties,
    original_properties, opt_dict.
  intros Hwf. apply andb_true_iff in Hwf. destruct Hwf as [Hp _].
  step.
  destruct (dict_get "properties" fd) as [p|]; [destruct p; try discriminate|];
    steps.
Qed.

Lemma geojson_feature_body_wf user td feature :
  wf_feature false feature = true ->
  emits (Geojson.feature_body user (VDict td) feature)
        (Normal (emit_A user (VDict td) feature)) []
        (if eligible_A feature then [emit_A user (VDict td) feature] else []).
Proof.
  intros Hwf. unfold Geojson.feature_body.
  eapply emits_bind;
    [eapply assemble_properties_wf; exact Hwf | | reflexivity | reflexivity].
  destruct feature as [| | | | | |fd]; try discriminate.
  steps.
Qed.

Lemma multipoint_feature_body_wf user td feature :
  wf_feature true feature = true ->
  emits (Multipoint.feature_body user (VDict td) feature)
        (Normal (untouched user (VDict td) feature)) []
        (if eligible_B feature then [emit_B user (VDict td) feature] else []).
Proof.
  intros Hwf.
  assert (Hprops := @assemble_properties_wf user td feature true Hwf).
  destruct feature as [| | | | | |fd]; try discriminate.
  unfold wf_feature in Hwf. apply andb_true_iff in Hwf. destruct Hwf as [_ Hg].
  unfold Multipoint.feature_body, eligible_B, emit_B, coordinates_of, geometry_of,
    untouched, opt_dict in *.
  step. simpl field.
  destruct (dict_get "geometry" fd) as [g|] eqn:Egeo.
  2:{ steps. }
  destruct g as [| | | | | |g]; try discriminate.
  step. simpl field.
  destruct (eq_str match dict_get "type" g with Some v => v | None => VNone end
                   "LineString") eqn:Etype.
  2:{ steps. }
  simpl negb. cbv iota.
  eapply emits_bind; [exact Hprops | | reflexivity | reflexivity].
  eapply emits_lift_bind; [simpl; rewrite Egeo; reflexivity|].
  steps.
Qed.

Lemma geojson_traverse_wf input_path data :
  wf_doc false data = true ->
  emits (Geojson.traverse input_path data)
        (Normal (Some (after_doc emit_A data)))
        (warnings_of true input_path data)
        (map (emitted emit_A) (traversal eligible_A data)).
Proof. apply traverse_wf. apply geojson_feature_body_wf. Qed.

Lemma multipoint_traverse_wf input_path data :
  wf_doc true data = true ->
  emits (Multipoint.traverse input_path data)
        (Normal (Some (after_doc untouched data)))
        (warnings_of false input_path data)
        (map (emitted emit_B) (traversal eligible_B data)).
Proof. apply traverse_wf. apply multipoint_feature_body_wf. Qed.

(* ================================================================== *)
(** ** [process_json_file] around a traversal that goes through *)
(* ================================================================== *)

Lemma process_json_file_through feature_body names_path input_path output_path
    s data data' msgs feats :
  files s input_path = Some (Json data) ->
  emits (Extract.traverse feature_body names_path input_path data)
        (Normal (Some data')) msgs feats ->
  Extract.process_json_file feature_body names_path input_path output_path s
  = contract input_path output_path s msgs feats.
Proof.
  intros Hfile Htraverse.
  unfold Extract.process_json_file, bind, load, reset_features, get_features.
  rewrite Hfile, Htraverse. unfold extend, contract. simpl.
  destruct feats as [|x rest]; [reflexivity|].
  unfold dump, print, ret, put. simpl.
  destruct (unwritable s output_path) as [[|complete|]|]; reflexivity.
Qed.

Lemma geojson_process_wf input_path output_path s data :
  files s input_path = Some (Json data) ->
  wf_doc false data = true ->
  Geojson.process_json_file input_path output_path s
  = contract input_path output_path s (warnings_of true input_path data)
             (map (emitted emit_A) (traversal eligible_A data)).
Proof.
  intros Hfile Hwf.
  apply process_json_file_through with (data := data) (data' := after_doc emit_A data);
    [exact Hfile | now apply geojson_traverse_wf].
Qed.

Lemma multipoint_process_wf input_path output_path s data :
  files s input_path = Some (Json data) ->
  wf_doc true data = true ->
  Multipoint.process_json_file input_path output_path s
  = contract input_path output_path s (warnings_of false input_path data)
             (map (emitted emit_B) (traversal eligible_B data)).
Proof.
  intros Hfile Hwf.
  apply process_json_file_through with (data := data) (data' := after_doc untouched data);
    [exact Hfile | now apply multipoint_traverse_wf].
Qed.

Lemma contract_final_features input_path output_path s msgs feats :
  final_features (snd (contract input_path output_path s msgs feats)) = feats.
Proof.
  unfold contract. destruct feats; [reflexivity|].
  destruct (unwritable s output_path) as [[|complete|]|]; reflexivity.
Qed.

Lemma contract_written input_path output_path s msgs feats :
  fst (contract input_path output_path s msgs feats) = Normal true ->
  files (snd (contract input_path output_path s msgs feats)) output_path
  = Some (Json (Extract.feature_collection feats)).
Proof.
  unfold contract. destruct feats; [discriminate|].
  destruct (unwritable s output_path) as [[|complete|]|]; try discriminate.
  intros _. simpl. now rewrite String.eqb_refl.
Qed.

Lemma process_items_not_list feature_body names_path input_path output_path s d v :
  files s input_path = Some (Json (VDict d)) ->
  dict_get "items" d = Some v ->
  (forall its, v <> VList its) ->
  Extract.process_json_file feature_body names_path input_path output_path s
  = (Normal false,
     mkState (files s) (unwritable s) (stdout s ++ [WarningItemsNotList input_path]) []).
Proof.
  intros Hfile Hitems Hnot.
  unfold Extract.process_json_file, Extract.traverse, bind, load, reset_features, lift.
  rewrite Hfile. simpl. rewrite Hitems.
  destruct v; try reflexivity.
  exfalso. now apply (Hnot xs).
Qed.

Lemma process_not_json feature_body names_path input_path output_path s :
  files s input_path = Some NotJson ->
  Extract.process_json_file feature_body names_path input_path output_path s
  = (Normal false,
     mkState (files s) (unwritable s) (stdout s ++ [ErrorInvalidJSON input_path])
             (final_features s)).
Proof.
  intros Hfile. unfold Extract.process_json_file, bind, load. now rewrite Hfile.
Qed.

Lemma wf_doc_no_items rg d : dict_get "items" d = None -> wf_doc rg (VDict d) = true.
Proof. intros H. unfold wf_doc. now rewrite H. Qed.

Lemma traversal_no_items eligible d :
  dict_get "items" d = None -> traversal eligible (VDict d) = [].
Proof. intros H. unfold traversal, items_of. now rewrite H. Qed.

Lemma warnings_no_items np ip d :
  dict_get "items" d = None -> warnings_of np ip (VDict d) = [].
Proof. intros H. unfold warnings_of, items_of. now rewrite H. Qed.

(* ================================================================== *)
(** ** The traversal on any document *)
(* ================================================================== *)

(** *** It only prints and appends *)

Lemma wl_ret {A} (a : A) : writer_like (ret a).
Proof. exists (Normal a), [], []. apply emits_ret. Qed.

Lemma wl_lift {A} (r : exn + A) : writer_like (lift r).
Proof. eexists _, [], []. apply emits_lift. Qed.

Lemma wl_print (m : message) : writer_like (print m).
Proof. exists (Normal tt), [m], []. apply emits_print. Qed.

Lemma wl_append (x : value) : writer_like (append x).
Proof. exists (Normal tt), [], [x]. apply emits_append. Qed.

Lemma wl_bind {A B} (m : M A) (k : A -> M B) :
  writer_like m -> (forall a, writer_like (k a)) -> writer_like (bind m k).
Proof.
  intros (r & l & f & Hm) Hk. destruct r as [a|e].
  - destruct (Hk a) as (r' & l' & f' & Hka).
    exists r', (l ++ l'), (f ++ f'). eapply emits_bind; eauto.
  - exists (Raised e), l, f. now apply emits_bind_raised.
Qed.

Lemma wl_for_each (body : value -> M value) (xs : list value) :
  (forall x, writer_like (body x)) -> writer_like (for_each body xs).
Proof.
  intros Hbody. induction xs as [|x rest IH]; simpl.
  - apply wl_ret.
  - apply wl_bind; [apply Hbody|]. intros x'.
    apply wl_bind; [exact IH|]. intros rest'. apply wl_ret.
Qed.

Ltac wl :=
  repeat first
    [ apply wl_ret | apply wl_lift | apply wl_print | apply wl_append
    | apply wl_bind; [|intro]
    | match goal with
      | |- writer_like (if ?b then _ else _) => destruct b
      | |- writer_like (match ?x with _ => _ end) => destruct x
      end ].

Lemma wl_assemble_properties user track_item feature :
  writer_like (Extract.assemble_properties user track_item feature).
Proof. unfold Extract.assemble_properties. wl. Qed.

Lemma wl_geojson_feature_body user track_item feature :
  writer_like (Geojson.feature_body user track_item feature).
Proof.
  unfold Geojson.feature_body.
  apply wl_bind; [apply wl_assemble_properties|]. intros p. wl.
Qed.

Lemma wl_multipoint_feature_body user track_item feature :
  writer_like (Multipoint.feature_body user track_item feature).
Proof.
  unfold Multipoint.feature_body.
  apply wl_bind; [apply wl_lift|]. intros g.
  apply wl_bind; [apply wl_lift|]. intros ty.
  destruct (negb (eq_str ty "LineString")); [apply wl_ret|].
  apply wl_bind; [apply wl_assemble_properties|]. intros p. wl.
Qed.

Section Any.

Variable feature_body : dict -> value -> value -> M value.
Variable names_path : bool.

Hypothesis wl_feature_body : forall user track_item feature,
  writer_like (feature_body user track_item feature).

Lemma wl_track_body input_path user_id user track_item :
  writer_like (Extract.track_body feature_body names_path input_path user_id user track_item).
Proof.
  unfold Extract.track_body.
  apply wl_bind; [apply wl_lift|]. intros inner.
  apply wl_bind; [wl|]. intros skip. destruct skip; [wl|].
  apply wl_bind; [apply wl_lift|]. intros features.
  apply wl_bind; [apply wl_lift|]. intros elements.
  apply wl_bind; [|intros; apply wl_ret].
  apply wl_for_each. intros f. apply wl_feature_body.
Qed.

Lemma wl_item_body input_path item :
  writer_like (Extract.item_body feature_body names_path input_path item).
Proof.
  unfold Extract.item_body.
  do 5 (apply wl_bind; [apply wl_lift|]; intro).
  match goal with |- writer_like (match ?x with _ => _ end) => destruct x end; wl.
  apply wl_for_each. intros t. apply wl_track_body.
Qed.

Lemma wl_traverse input_path data :
  writer_like (Extract.traverse feature_body names_path input_path data).
Proof.
  unfold Extract.traverse.
  apply wl_bind; [apply wl_lift|]. intros items.
  destruct items; wl. apply wl_for_each. intros x. apply wl_item_body.
Qed.

End Any.

Lemma emits_files {A} (m : M A) r l f s :
  emits m r l f ->
  files (snd (m s)) = files s /\ unwritable (snd (m s)) = unwritable s.
Proof. intros H. rewrite H. now split. Qed.





(** [process_json_file] around any traversal that only prints and
    appends. *)
Lemma process_json_file_outcome feature_body names_path input_path output_path
    s data r msgs feats :
  files s input_path = Some (Json data) ->
  emits (Extract.traverse feature_body names_path input_path data) r msgs feats ->
  Extract.process_json_file feature_body names_path input_path output_path s
  = match r with
    | Raised e => (Raised e, mkState (files s) (unwritable s) (stdout s ++ msgs) feats)
    | Normal None =>
        (Normal false, mkState (files s) (unwritable s) (stdout s ++ msgs) feats)
    | Normal (Some _) => contract input_path output_path s msgs feats
    end.
Proof.
  intros Hfile Htraverse. destruct r as [[data'|]|e].
  - now apply process_json_file_through with (data := data) (data' := data').
  - unfold Extract.process_json_file, bind, load, reset_features.
    rewrite Hfile, Htraverse. reflexivity.
  - unfold Extract.process_json_file, bind, load, reset_features.
    rewrite Hfile, Htraverse. reflexivity.
Qed.


(** *** What it leaves of the tree *)

Lemma yields_ret {A} (a : A) (P : A -> Prop) : P a -> yields (ret a) P.
Proof. intros H s a' s' [= <- _]. exact H. Qed.

Lemma yields_lift {A} (r : exn + A) : yields (lift r) (fun a => r = inr a).
Proof. intros s a s'. destruct r; simpl; [discriminate|]. now intros [= -> _]. Qed.

Lemma yields_bind {A B} (m : M A) (k : A -> M B) (Q : A -> Prop) (P : B -> Prop) :
  yields m Q -> (forall a, Q a -> yields (k a) P) -> yields (bind m k) P.
Proof.
  intros Hm Hk s b s'. unfold bind.
  destruct (m s) as [[a|e] s1] eqn:E; [|discriminate].
  apply Hk. exact (Hm _ _ _ E).
Qed.

Lemma yields_then {A B} (m : M A) (k : A -> M B) (P : B -> Prop) :
  (forall a, yields (k a) P) -> yields (bind m k) P.
Proof.
  intros Hk. apply yields_bind with (Q := fun _ => True); [|auto].
  intros s a s' _. exact I.
Qed.

Lemma yields_for_each (body : value -> M value) (xs : list value) :
  (forall x, yields (body x) (eq x)) -> yields (for_each body xs) (eq xs).
Proof.
  intros Hbody. induction xs as [|x rest IH]; simpl.
  - now apply yields_ret.
  - eapply yields_bind; [apply Hbody|]. intros x' <-.
    eapply yields_bind; [exact IH|]. intros rest' <-.
    now apply yields_ret.
Qed.

Section Unchanged.

Variable feature_body : dict -> value -> value -> M value.
Variable names_path : bool.

Hypothesis feature_body_reads : forall user track_item feature,
  yields (feature_body user track_item feature) (eq feature).

Lemma track_body_reads input_path user_id user track_item :
  yields (Extract.track_body feature_body names_path input_path user_id user track_item)
         (eq track_item).
Proof.
  unfold Extract.track_body.
  eapply yields_bind; [apply yields_lift|]. intros inner Hinner.
  apply yields_then. intros skip. destruct skip.
  { apply yields_then. intros _. now apply yields_ret. }
  eapply yields_bind; [apply yields_lift|]. intros features Hfeatures.
  eapply yields_bind; [apply yields_lift|]. intros elements Helements.
  eapply yields_bind; [apply yields_for_each; intros f; apply feature_body_reads|].
  intros elements' <-. apply yields_ret.
  unfold Extract.with_features.
  destruct features; try reflexivity.
  simpl in Helements. injection Helements as <-.
  rewrite (rebind_get _ _ _ Hfeatures). now rewrite (rebind_get _ _ _ Hinner).
Qed.

Lemma item_body_reads input_path item :
  yields (Extract.item_body feature_body names_path input_path item) (eq item).
Proof.
  unfold Extract.item_body.
  do 4 (apply yields_then; intro).
  eapply yields_bind; [apply yields_lift|]. intros tracks Htracks.
  destruct tracks; try (apply yields_then; intros _; now apply yields_ret).
  eapply yields_bind; [apply yields_for_each; intros t; apply track_body_reads|].
  intros ts' <-. apply yields_ret.
  unfold Extract.with_tracks. now rewrite (rebind_get _ _ _ Htracks).
Qed.

Lemma traverse_reads input_path data :
  yields (Extract.traverse feature_body names_path input_path data)
         (fun t => forall data', t = Some data' -> data' = data).
Proof.
  unfold Extract.traverse.
  eapply yields_bind; [apply yields_lift|]. intros items Hitems.
  destruct items; try (apply yields_then; intros _; now apply yields_ret).
  eapply yields_bind; [apply yields_for_each; intros t; apply item_body_reads|].
  intros its' <-. apply yields_ret. intros data' [= <-].
  unfold Extract.with_items. now rewrite (rebind_get _ _ _ Hitems).
Qed.

End Unchanged.

Lemma multipoint_feature_body_reads user track_item feature :
  yields (Multipoint.feature_body user track_item feature) (eq feature).
Proof.
  unfold Multipoint.feature_body.
  do 2 (apply yields_then; intro).
  destruct (negb _); [now apply yields_ret|].
  do 4 (apply yields_then; intro). now apply yields_ret.
Qed.

(* ================================================================== *)
(** ** The properties of the specification *)
(* ================================================================== *)

Import Examples.

Lemma user_fields_keys item : NoDup (map fst (user_fields item)).
Proof.
  simpl. repeat constructor; simpl; intuition discriminate.
Qed.

Lemma track_fields_keys track_item : NoDup (map fst (track_fields track_item)).
Proof.
  simpl. repeat constructor; simpl; intuition discriminate.
Qed.

Lemma emit_A_merged p :
  wf_feature false (the_feature p) = true ->
  has_merged_properties p (emitted emit_A p).
Proof.
  destruct p as [item track_item feature]. simpl.
  destruct feature as [| | | | | |fd]; try discriminate. intros _.
  unfold has_merged_properties, emitted, emit_A, field. simpl.
  now rewrite dict_get_set_same.
Qed.

Lemma emit_B_merged p : has_merged_properties p (emitted emit_B p).
Proof. reflexivity. Qed.

(** The features of the traversal of a well-formed document are
    well-formed. *)
Lemma traversal_wf rg eligible data :
  wf_doc rg data = true ->
  Forall (fun p => wf_feature rg (the_feature p) = true) (traversal eligible data).
Proof.
  intros Hwf. apply Forall_forall. intros p Hin.
  unfold traversal in Hin. apply in_flat_map in Hin. destruct Hin as (item & Hitem & Hin).
  apply in_flat_map in Hin. destruct Hin as (t & Ht & Hin).
  apply in_map_iff in Hin. destruct Hin as (f & <- & Hf).
  apply filter_In in Hf. destruct Hf as [Hf _]. simpl.
  unfold wf_doc, items_of in *. destruct data as [| | | | | |d]; try discriminate.
  destruct (dict_get "items" d) as [[| | | | |its|]|]; try discriminate; try contradiction.
  rewrite forallb_forall in Hwf. specialize (Hwf _ Hitem).
  unfold wf_item, tracks_of in *. destruct item as [| | | | | |di]; try discriminate.
  destruct (dict_get "tracks" di) as [[| | | | |ts|]|]; try contradiction.
  rewrite forallb_forall in Hwf. specialize (Hwf _ Ht).
  unfold wf_track, features_of in *. destruct t as [| | | | | |dt]; try discriminate.
  destruct (dict_get "track" dt) as [[| | | | | |c]|]; try contradiction.
  destruct (dict_get "features" c) as [[| | | | |fs|]|]; try contradiction.
  rewrite forallb_forall in Hwf. now apply Hwf.
Qed.

Lemma Forall2_map_r {A B} (R : A -> B -> Prop) (f : A -> B) (xs : list A) :
  Forall (fun x => R x (f x)) xs -> Forall2 R xs (map f xs).
Proof. induction 1; simpl; constructor; auto. Qed.

(** C1.  Property merge: for a well-formed document, every feature
    either variant emits carries as [properties] the original
    properties of its source feature overlaid with the four user-level
    fields of the enclosing user record and then with the five
    track-level fields of the enclosing track record (each the
    record's value, null when absent); under a key that is injected the
    injected value is found, the track's before the user's, and under
    any other key the original one. *)
Theorem C1_property_merge input_path output_path s data :
  files s input_path = Some (Json data) ->
  (wf_doc false data = true ->
   Forall2 has_merged_properties (traversal eligible_A data)
     (final_features (snd (Geojson.process_json_file input_path output_path s))))
  /\ (wf_doc true data = true ->
      Forall2 has_merged_properties (traversal eligible_B data)
        (final_features (snd (Multipoint.process_json_file input_path output_path s))))
  /\ (forall item track_item feature k,
        dict_get k (merged_properties (user_fields item) (track_fields track_item) feature)
        = match dict_get k (track_fields track_item) with
          | Some v => Some v
          | None =>
              match dict_get k (user_fields item) with
              | Some v => Some v
              | None => dict_get k (original_properties feature)
              end
          end)
  /\ (forall item track_item,
        user_fields item
        = map (fun k => (k, field k item)) ["userId"; "ageGroup"; "countryCode"; "gender"]
        /\ track_fields track_item
           = map (fun k => (k, field k track_item))
                 ["trackId"; "activity"; "locationCountry"; "summary"; "resort"]).
Proof.
  intros Hfile. repeat split.
  - intros Hwf. rewrite (@geojson_process_wf input_path output_path s data Hfile Hwf),
      contract_final_features.
    apply Forall2_map_r.
    eapply Forall_impl; [|apply traversal_wf; exact Hwf].
    intros p Hp. now apply emit_A_merged.
  - intros Hwf. rewrite (@multipoint_process_wf input_path output_path s data Hfile Hwf),
      contract_final_features.
    apply Forall2_map_r. apply Forall_forall. intros p _. apply emit_B_merged.
  - intros item track_item feature k. unfold merged_properties, overlay.
    rewrite dict_get_update by apply track_fields_keys.
    now rewrite dict_get_update by apply user_fields_keys.
Qed.

Lemma C1_property_merge_witness :
  Forall2 has_merged_properties (traversal eligible_A two_users_doc)
    (final_features
       (snd (Geojson.process_json_file input_path output_path (world (Json two_users_doc)))))
  /\ Forall2 has_merged_properties (traversal eligible_B two_users_doc)
       (final_features
          (snd (Multipoint.process_json_file input_path output_path
                  (world (Json two_users_doc))))).
Proof.
  destruct (@C1_property_merge input_path output_path (world (Json two_users_doc))
              two_users_doc eq_refl) as (HA & HB & _).
  split; [apply HA | apply HB]; reflexivity.
Defined.

Lemma traversal_filter data :
  traversal eligible_B data
  = filter (fun p => eligible_B (the_feature p)) (traversal eligible_A data).
Proof.
  unfold traversal. induction (items_of data) as [|item its IH]; simpl; [reflexivity|].
  rewrite filter_app, <- IH. f_equal.
  induction (tracks_of item) as [|t ts IHt]; simpl; [reflexivity|].
  rewrite filter_app, <- IHt. f_equal.
  induction (features_of t) as [|f fs IHf]; simpl; [reflexivity|].
  destruct (eligible_B f); simpl; now rewrite IHf.
Qed.

(** C2.  Order: for a well-formed document, the features either
    variant emits, and writes as the [features] of the
    FeatureCollection when it writes one, are the features of the
    user-major, track-major, feature-major traversal, one output
    feature per eligible feature and in that order: the i-th output
    feature is the one made from the i-th eligible feature.  Variant
    B's eligible features are those of Variant A with the ones that are
    not LineStrings filtered out, the others in their order. *)
Theorem C2_traversal_order input_path output_path s data :
  files s input_path = Some (Json data) ->
  (wf_doc false data = true ->
   let run := Geojson.process_json_file input_path output_path s in
   let out := map (emitted emit_A) (traversal eligible_A data) in
   final_features (snd run) = out
   /\ (forall i, nth_error (final_features (snd run)) i
                 = option_map (emitted emit_A) (nth_error (traversal eligible_A data) i))
   /\ (fst run = Normal true ->
       files (snd run) output_path = Some (Json (Extract.feature_collection out))))
  /\ (wf_doc true data = true ->
      let run := Multipoint.process_json_file input_path output_path s in
      let out := map (emitted emit_B) (traversal eligible_B data) in
      final_features (snd run) = out
      /\ (forall i, nth_error (final_features (snd run)) i
                    = option_map (emitted emit_B) (nth_error (traversal eligible_B data) i))
      /\ (fst run = Normal true ->
          files (snd run) output_path = Some (Json (Extract.feature_collection out))))
  /\ traversal eligible_B data
     = filter (fun p => eligible_B (the_feature p)) (traversal eligible_A data).
Proof.
  intros Hfile. split; [|split].
  - intros Hwf. cbv zeta.
    rewrite (@geojson_process_wf input_path output_path s data Hfile Hwf).
    rewrite contract_final_features. split; [reflexivity|]. split.
    + intros i. apply nth_error_map.
    + apply contract_written.
  - intros Hwf. cbv zeta.
    rewrite (@multipoint_process_wf input_path output_path s data Hfile Hwf).
    rewrite contract_final_features. split; [reflexivity|]. split.
    + intros i. apply nth_error_map.
    + apply contract_written.
  - apply traversal_filter.
Qed.

Lemma C2_traversal_order_witness :
  final_features
    (snd (Geojson.process_json_file input_path output_path (world (Json two_users_doc))))
  = map (emitted emit_A) (traversal eligible_A two_users_doc)
  /\ final_features
       (snd (Multipoint.process_json_file input_path output_path
               (world (Json two_users_doc))))
     = map (emitted emit_B) (traversal eligible_B two_users_doc).
Proof.
  destruct (@C2_traversal_order input_path output_path (world (Json two_users_doc))
              two_users_doc eq_refl) as (HA & HB & _).
  split; [apply (HA eq_refl) | apply (HB eq_refl)].
Defined.

Lemma eligible_B_line_string feature :
  eligible_B feature = true ->
  exists g, field "geometry" feature = VDict g
            /\ dict_get "type" g = Some (VStr "LineString").
Proof.
  unfold eligible_B, geometry_of.
  destruct (field "geometry" feature) as [| | | | | |g]; try discriminate.
  simpl. intros H. exists g. split; [reflexivity|].
  destruct (dict_get "type" g) as [[| | | |t| |]|]; try discriminate.
  simpl in H. apply String.eqb_eq in H. now subst.
Qed.

Lemma emit_B_relabelled p :
  eligible_B (the_feature p) = true -> relabelled p (emitted emit_B p).
Proof.
  intros Hel. destruct (eligible_B_line_string _ Hel) as (g & Hg & Hty).
  exists g. repeat split; auto.
  unfold emitted, emit_B, coordinates_of, geometry_of. now rewrite Hg.
Qed.

(** C3.  Variant B: for a well-formed document, every emitted feature
    has as geometry exactly a MultiPoint over the coordinates of its
    source feature's geometry, as they are, and that source geometry
    has type "LineString"; a feature is a source exactly when its
    [geometry.type] is the string "LineString", the sources being the
    traversal of Variant A with all other features left out. *)
Theorem C3_multipoint_relabelling input_path output_path s data :
  files s input_path = Some (Json data) ->
  wf_doc true data = true ->
  Forall2 relabelled (traversal eligible_B data)
    (final_features (snd (Multipoint.process_json_file input_path output_path s)))
  /\ traversal eligible_B data
     = filter (fun p => eligible_B (the_feature p)) (traversal eligible_A data)
  /\ (forall feature,
        eligible_B feature = true
        <-> field "type" (field "geometry" feature) = VStr "LineString").
Proof.
  intros Hfile Hwf. split; [|split].
  - rewrite (@multipoint_process_wf input_path output_path s data Hfile Hwf),
      contract_final_features.
    apply Forall2_map_r. apply Forall_forall. intros p Hin.
    apply emit_B_relabelled.
    rewrite traversal_filter in Hin. apply filter_In in Hin. tauto.
  - apply traversal_filter.
  - intros feature. unfold eligible_B, geometry_of, eq_str.
    destruct (field "type" (field "geometry" feature)); split; try discriminate.
    + intros H. apply String.eqb_eq in H. now subst.
    + intros [= ->]. apply String.eqb_refl.
Qed.

Lemma C3_multipoint_relabelling_witness :
  Forall2 relabelled (traversal eligible_B two_users_doc)
    (final_features
       (snd (Multipoint.process_json_file input_path output_path
               (world (Json two_users_doc))))).
Proof.
  apply (@C3_multipoint_relabelling input_path output_path (world (Json two_users_doc))
           two_users_doc eq_refl eq_refl).
Defined.

(** C4.  The example of the specification: Variant A returns [True]
    and writes the FeatureCollection of the one feature, its
    LineString geometry as it was and the nine properties; Variant B
    returns [True] and writes the FeatureCollection of the one
    feature with the MultiPoint over the same two positions and the
    same nine properties. *)
Theorem C4_example :
  let a := Geojson.process_json_file input_path output_path (world (Json example_doc)) in
  let b := Multipoint.process_json_file input_path output_path (world (Json example_doc)) in
  let properties :=
    VDict [("userId", VStr "u1"); ("ageGroup", VNone); ("countryCode", VNone);
           ("gender", VNone); ("trackId", VStr "t1"); ("activity", VNone);
           ("locationCountry", VNone); ("summary", VNone); ("resort", VNone)] in
  let positions := VList [VList [VInt 0; VInt 0]; VList [VInt 1; VInt 1]] in
  let feature_a :=
    VDict [("type", VStr "Feature");
           ("geometry", VDict [("type", VStr "LineString"); ("coordinates", positions)]);
           ("properties", properties)] in
  let feature_b :=
    VDict [("type", VStr "Feature");
           ("geometry", VDict [("type", VStr "MultiPoint"); ("coordinates", positions)]);
           ("properties", properties)] in
  fst a = Normal true
  /\ final_features (snd a) = [feature_a]
  /\ files (snd a) output_path
     = Some (Json (VDict [("type", VStr "FeatureCollection");
                          ("features", VList [feature_a])]))
  /\ fst b = Normal true
  /\ final_features (snd b) = [feature_b]
  /\ files (snd b) output_path
     = Some (Json (VDict [("type", VStr "FeatureCollection");
                          ("features", VList [feature_b])])).
Proof. vm_compute. repeat split. Qed.

(** C5.  [items] present and not a list: either variant prints the
    one warning about the file and returns [False]; no file is
    written, no feature collected, nothing else printed. *)
Theorem C5_items_not_a_list input_path output_path s d v :
  files s input_path = Some (Json (VDict d)) ->
  dict_get "items" d = Some v ->
  (forall its, v <> VList its) ->
  let failed :=
    (Normal false,
     mkState (files s) (unwritable s) (stdout s ++ [WarningItemsNotList input_path]) []) in
  Geojson.process_json_file input_path output_path s = failed
  /\ Multipoint.process_json_file input_path output_path s = failed.
Proof.
  intros Hfile Hitems Hnot. split; eapply process_items_not_list; eauto.
Qed.

Lemma C5_items_not_a_list_witness :
  fst (Geojson.process_json_file input_path output_path (world (Json items_not_list_doc)))
  = Normal false
  /\ fst (Multipoint.process_json_file input_path output_path
            (world (Json items_not_list_doc)))
     = Normal false.
Proof.
  destruct (@C5_items_not_a_list input_path output_path (world (Json items_not_list_doc))
              [("items", VDict [("a", VInt 1)])] (VDict [("a", VInt 1)])
              eq_refl eq_refl) as [HA HB].
  - intros its. discriminate.
  - rewrite HA, HB. split; reflexivity.
Defined.






(** C8.  Documents outside the shape of section 3 on which an
    exception leaves [process_json_file]: [features] bound to null
    ([for feature in None] raises TypeError, in both variants), a
    feature whose [geometry] is null ([None.get] raises AttributeError
    in Variant B; Variant A, which does not look into the geometry,
    converts it), a [track] that is a number (['features' in 5] raises
    TypeError), [features] that is a mapping (the loop runs over its
    keys, and a [str] has no [get]: AttributeError), and a document
    that is a list ([data.get] raises AttributeError). *)
Theorem C8_exception_propagates :
  let geojson doc :=
    fst (Geojson.process_json_file input_path output_path (world (Json doc))) in
  let multipoint doc :=
    fst (Multipoint.process_json_file input_path output_path (world (Json doc))) in
  geojson features_null_doc = Raised TypeError
  /\ multipoint features_null_doc = Raised TypeError
  /\ multipoint geometry_null_doc = Raised AttributeError
  /\ geojson geometry_null_doc = Normal true
  /\ geojson track_number_doc = Raised TypeError
  /\ multipoint track_number_doc = Raised TypeError
  /\ geojson features_mapping_doc = Raised AttributeError
  /\ multipoint features_mapping_doc = Raised AttributeError
  /\ geojson top_level_list_doc = Raised AttributeError
  /\ multipoint top_level_list_doc = Raised AttributeError.
Proof. vm_compute. repeat split. Qed.

(** C9, as stated, fails: Variant A assigns the new properties into
    the feature of the input, so the tree is not what it was. *)
Lemma C9_counterexample :
  ~ (forall input_path data s data',
       fst (Geojson.traverse input_path data s) = Normal (Some data') -> data' = data).
Proof.
  intros H.
  specialize (H input_path example_doc (world (Json example_doc)) _ eq_refl).
  vm_compute in H. discriminate H.
Qed.

Lemma emit_A_other_entries user track_item fd k :
  k <> "properties" ->
  field k (emit_A user track_item (VDict fd)) = field k (VDict fd).
Proof.
  intros Hk. unfold emit_A, field.
  rewrite dict_get_set_other; [reflexivity|]. congruence.
Qed.

(** C9, amended.  The traversal of either variant, on any document and
    however it ends, leaves the file system as it was (the files are
    read and written by [process_json_file] around it).  Variant B's
    traversal leaves the parsed tree as it was, on any document.
    Variant A's traversal of a well-formed document leaves the tree
    with each feature it emitted replaced by that emitted feature,
    which is the input feature with the merged mapping as its
    [properties] and every other entry as it was. *)
Theorem C9_side_effects input_path data s :
  (files (snd (Geojson.traverse input_path data s)) = files s
   /\ unwritable (snd (Geojson.traverse input_path data s)) = unwritable s)
  /\ (files (snd (Multipoint.traverse input_path data s)) = files s
      /\ unwritable (snd (Multipoint.traverse input_path data s)) = unwritable s)
  /\ (forall data',
        fst (Multipoint.traverse input_path data s) = Normal (Some data') -> data' = data)
  /\ (wf_doc false data = true ->
      fst (Geojson.traverse input_path data s) = Normal (Some (after_doc emit_A data))
      /\ final_features (snd (Geojson.traverse input_path data s))
         = final_features s ++ map (emitted emit_A) (traversal eligible_A data))
  /\ (forall user track_item fd k,
        k <> "properties" ->
        field k (emit_A user track_item (VDict fd)) = field k (VDict fd)).
Proof.
  split; [|split; [|split; [|split]]].
  - destruct (@wl_traverse Geojson.feature_body true wl_geojson_feature_body
                input_path data) as (r & l & f & H).
    exact (emits_files s H).
  - destruct (@wl_traverse Multipoint.feature_body false wl_multipoint_feature_body
                input_path data) as (r & l & f & H).
    exact (emits_files s H).
  - intros data' Hrun.
    destruct (Multipoint.traverse input_path data s) as [r s'] eqn:E.
    simpl in Hrun. subst r.
    exact (@traverse_reads Multipoint.feature_body false multipoint_feature_body_reads
             input_path data s (Some data') s' E data' eq_refl).
  - intros Hwf. rewrite (@geojson_traverse_wf input_path data Hwf s). split; reflexivity.
  - intros user track_item fd k. apply emit_A_other_entries.
Qed.

Lemma C9_side_effects_witness :
  fst (Geojson.traverse input_path example_doc (world (Json example_doc)))
  = Normal (Some (after_doc emit_A example_doc))
  /\ fst (Multipoint.traverse input_path example_doc (world (Json example_doc)))
     = Normal (Some example_doc).
Proof.
  destruct (@C9_side_effects input_path example_doc (world (Json example_doc)))
    as (_ & _ & _ & HA & _).
  split; [apply (HA eq_refl) | reflexivity].
Defined.

(** C10.  A document that is a mapping without [items]: either
    variant goes through an empty traversal, prints the "nothing to
    write" notice and nothing else (not the warning of the shape
    failure), returns [False] and writes no file. *)
Theorem C10_items_absent input_path output_path s d :
  files s input_path = Some (Json (VDict d)) ->
  dict_get "items" d = None ->
  let empty :=
    (Normal false,
     mkState (files s) (unwritable s) (stdout s ++ [InfoNoFeatures input_path]) []) in
  Geojson.process_json_file input_path output_path s = empty
  /\ Multipoint.process_json_file input_path output_path s = empty
  /\ fst (Geojson.traverse input_path (VDict d) s) = Normal (Some (VDict d))
  /\ fst (Multipoint.traverse input_path (VDict d) s) = Normal (Some (VDict d)).
Proof.
  intros Hfile Hitems. cbv zeta.
  pose proof (wf_doc_no_items false d Hitems) as HwfA.
  pose proof (wf_doc_no_items true d Hitems) as HwfB.
  repeat split.
  - rewrite (@geojson_process_wf input_path output_path s (VDict d) Hfile HwfA).
    rewrite traversal_no_items, warnings_no_items by exact Hitems.
    unfold contract. simpl. now rewrite app_nil_r.
  - rewrite (@multipoint_process_wf input_path output_path s (VDict d) Hfile HwfB).
    rewrite traversal_no_items, warnings_no_items by exact Hitems.
    unfold contract. simpl. now rewrite app_nil_r.
  - rewrite (@geojson_traverse_wf input_path (VDict d) HwfA s). simpl. now rewrite Hitems.
  - rewrite (@multipoint_traverse_wf input_path (VDict d) HwfB s). simpl.
    now rewrite Hitems.
Qed.

Lemma C10_items_absent_witness :
  Geojson.process_json_file input_path output_path (world (Json no_items_doc))
  = (Normal false,
     mkState (files (world (Json no_items_doc))) (unwritable (world (Json no_items_doc)))
             [InfoNoFeatures input_path] [])
  /\ fst (Multipoint.process_json_file input_path output_path (world (Json no_items_doc)))
     = Normal false.
Proof.
  destruct (@C10_items_absent input_path output_path (world (Json no_items_doc))
              [("version", VInt 1)] eq_refl eq_refl) as (HA & HB & _).
  rewrite HB. split; [exact HA | reflexivity].
Defined.


(* ================================================================== *)
(** ** Further properties of [process_json_file] *)
(* ================================================================== *)

Lemma process_not_loadable feature_body names_path input_path output_path s e :
  files s input_path = Some (Unloadable e) ->
  Extract.process_json_file feature_body names_path input_path output_path s
  = (Raised e, s).
Proof.
  intros Hfile. unfold Extract.process_json_file, bind, load. now rewrite Hfile.
Qed.

Lemma process_missing feature_body names_path input_path output_path s :
  files s input_path = None ->
  Extract.process_json_file feature_body names_path input_path output_path s
  = (Normal false,
     mkState (files s) (unwritable s) (stdout s ++ [ErrorInputNotFound input_path])
             (final_features s)).
Proof.
  intros Hfile. unfold Extract.process_json_file, bind, load. now rewrite Hfile.
Qed.

Section Process.

Variable feature_body : dict -> value -> value -> M value.
Variable names_path : bool.

Hypothesis wl_feature_body : forall user track_item feature,
  writer_like (feature_body user track_item feature).

(** The ways a call can end, and what each leaves behind: the files
    as they were, or features found and the output file opened, with
    the document in it or what a failed write left of it. *)
Lemma process_json_file_cases input_path output_path s :
  let run := Extract.process_json_file feature_body names_path input_path output_path s in
  unwritable (snd run) = unwritable s
  /\ ((fst run <> Normal true /\ files (snd run) = files s)
      \/ (exists x rest content,
            final_features (snd run) = x :: rest
            /\ unwritable s output_path <> Some OpenFails
            /\ (content = written_document (x :: rest) \/ content = NotJson)
            /\ (fst run = Normal true -> content = written_document (x :: rest))
            /\ (unwritable s output_path = None -> fst run = Normal true)
            /\ files (snd run)
               = fun p => if String.eqb p output_path then Some content else files s p)).
Proof.
  cbv zeta.
  destruct (files s input_path) as [[|data|e]|] eqn:Hfile.
  - rewrite (@process_not_json feature_body names_path input_path output_path s Hfile).
    simpl. split; [reflexivity|]. left. split; [discriminate | reflexivity].
  - destruct (@wl_traverse feature_body names_path wl_feature_body input_path data)
      as (r & l & f & H).
    rewrite (@process_json_file_outcome feature_body names_path input_path output_path
               s data r l f Hfile H).
    destruct r as [[t|]|e]; simpl;
      try (split; [reflexivity|]; left; split; [discriminate | reflexivity]).
    unfold contract. destruct f as [|x rest]; simpl.
    + split; [reflexivity|]. left. split; [discriminate | reflexivity].
    + destruct (unwritable s output_path) as [[|complete|]|] eqn:Hunw; simpl.
      * split; [reflexivity|]. left. split; [discriminate | reflexivity].
      * split; [reflexivity|]. right.
        exists x, rest, (if complete then written_document (x :: rest) else NotJson).
        repeat split; try discriminate.
        destruct complete; [now left | now right].
      * split; [reflexivity|]. right. exists x, rest, NotJson.
        repeat split; try discriminate. now right.
      * split; [reflexivity|]. right. exists x, rest, (written_document (x :: rest)).
        repeat split; try discriminate. now left.
  - rewrite (@process_not_loadable feature_body names_path input_path output_path s e
               Hfile).
    simpl. split; [reflexivity|]. left. split; [discriminate | reflexivity].
  - rewrite (@process_missing feature_body names_path input_path output_path s Hfile).
    simpl. split; [reflexivity|]. left. split; [discriminate | reflexivity].
Qed.

(** A FeatureCollection read back as an input has no [items]. *)
Lemma process_feature_collection input_path output_path s feats :
  files s input_path = Some (written_document feats) ->
  Extract.process_json_file feature_body names_path input_path output_path s
  = (Normal false,
     mkState (files s) (unwritable s) (stdout s ++ [InfoNoFeatures input_path]) []).
Proof.
  intros Hfile.
  unfold Extract.process_json_file, bind, load. rewrite Hfile. reflexivity.
Qed.

End Process.

Lemma cases_only_output output_path s (run : result bool * state) :
  (unwritable (snd run) = unwritable s
   /\ ((fst run <> Normal true /\ files (snd run) = files s)
       \/ (exists x rest content,
             final_features (snd run) = x :: rest
             /\ unwritable s output_path <> Some OpenFails
             /\ (content = written_document (x :: rest) \/ content = NotJson)
             /\ (fst run = Normal true -> content = written_document (x :: rest))
             /\ (unwritable s output_path = None -> fst run = Normal true)
             /\ files (snd run)
                = fun p => if String.eqb p output_path then Some content
                           else files s p))) ->
  only_output_written output_path s run.
Proof.
  intros [_ [[Hnot Hfiles]|(x & rest & content & Hfeats & Hopen & _ & Htrue & Hnone
                            & Hfiles)]];
    unfold only_output_written; rewrite Hfiles.
  - split; [|split; [|split]].
    + reflexivity.
    + intros H. now contradiction H.
    + intros H. contradiction.
    + reflexivity.
  - split; [|split; [|split]].
    + intros p Hp. apply String.eqb_neq in Hp. now rewrite Hp.
    + intros _. split; [exact Hopen | congruence].
    + intros H. exists x, rest. split; [exact Hfeats|].
      rewrite String.eqb_refl. now rewrite (Htrue H).
    + intros Hn Hf. now contradiction Hf; apply Hnone.
Qed.

(** X1.  Whatever the input file holds and however the call ends, a
    call of [process_json_file] of either variant changes no file
    other than the output file.  It touches the output file only when
    it found features and could open the file.  When it returns [True] the output file holds
    the FeatureCollection of the features it found, at least one.
    When the output file can be written without a fault, it is left as
    it was too unless the call returns [True]. *)
Theorem X1_only_output_written input_path output_path s :
  only_output_written output_path s
    (Geojson.process_json_file input_path output_path s)
  /\ only_output_written output_path s
       (Multipoint.process_json_file input_path output_path s).
Proof.
  split; apply cases_only_output; apply process_json_file_cases.
  - apply wl_geojson_feature_body.
  - apply wl_multipoint_feature_body.
Qed.

Lemma X1_only_output_written_witness :
  exists x rest,
    final_features
      (snd (Geojson.process_json_file input_path output_path (world (Json example_doc))))
    = x :: rest
    /\ files
         (snd (Geojson.process_json_file input_path output_path
                 (world (Json example_doc)))) output_path
       = Some (written_document (x :: rest)).
Proof.
  destruct (@X1_only_output_written input_path output_path (world (Json example_doc)))
    as [(_ & _ & HA & _) _].
  apply HA. reflexivity.
Defined.






Lemma written_then_nothing (fb1 fb2 : dict -> value -> value -> M value) np1 np2
    input_path output_path next_path s :
  (forall user track_item feature, writer_like (fb1 user track_item feature)) ->
  fst (Extract.process_json_file fb1 np1 input_path output_path s) = Normal true ->
  Extract.process_json_file fb2 np2 output_path next_path
    (snd (Extract.process_json_file fb1 np1 input_path output_path s))
  = nothing_found output_path
      (snd (Extract.process_json_file fb1 np1 input_path output_path s)).
Proof.
  intros Hwl Htrue.
  destruct (@process_json_file_cases fb1 np1 Hwl input_path output_path s)
    as [_ [[Hnot _]|(x & rest & content & _ & _ & _ & Hc & _ & Hfiles)]];
    [contradiction|].
  apply process_feature_collection with (feats := x :: rest).
  rewrite Hfiles, String.eqb_refl. now rewrite (Hc Htrue).
Qed.

(** X3.  What either variant writes is no input for either variant:
    after a call that returned [True], a call of either variant on the
    output file finds no [items] in it, prints the "nothing to write"
    notice, returns [False] and writes nothing. *)
Theorem X3_output_is_no_input input_path output_path next_path s :
  (fst (Geojson.process_json_file input_path output_path s) = Normal true ->
   let s' := snd (Geojson.process_json_file input_path output_path s) in
   Geojson.process_json_file output_path next_path s' = nothing_found output_path s'
   /\ Multipoint.process_json_file output_path next_path s' = nothing_found output_path s')
  /\ (fst (Multipoint.process_json_file input_path output_path s) = Normal true ->
      let s' := snd (Multipoint.process_json_file input_path output_path s) in
      Geojson.process_json_file output_path next_path s' = nothing_found output_path s'
      /\ Multipoint.process_json_file output_path next_path s'
         = nothing_found output_path s').
Proof.
  split; intros Htrue; cbv zeta; split;
    apply written_then_nothing;
    auto using wl_geojson_feature_body, wl_multipoint_feature_body.
Qed.

Lemma X3_output_is_no_input_witness :
  let s' :=
    snd (Geojson.process_json_file input_path output_path (world (Json example_doc))) in
  Multipoint.process_json_file output_path "again.geojson" s'
  = nothing_found output_path s'.
Proof.
  destruct (@X3_output_is_no_input input_path output_path "again.geojson"
              (world (Json example_doc))) as [HA _].
  exact (proj2 (HA eq_refl)).
Defined.

(** *** Keys *)

Lemma keys_dict_set k v d :
  keys (dict_set k v d) = if dict_has k d then keys d else keys d ++ [k].
Proof.
  unfold keys, dict_has. induction d as [|[k' v'] rest IH]; simpl; [reflexivity|].
  destruct (String.eqb k k') eqn:E; simpl.
  - apply String.eqb_eq in E. now subst.
  - rewrite IH. now destruct (dict_get k rest).
Qed.

Lemma dict_has_set_other k k' v d :
  k <> k' -> dict_has k' (dict_set k v d) = dict_has k' d.
Proof. intros H. unfold dict_has. now rewrite dict_get_set_other. Qed.

Lemma keys_dict_update (over : dict) :
  NoDup (keys over) ->
  forall base,
    keys (dict_update base over)
    = keys base ++ filter (fun k => negb (dict_has k base)) (keys over).
Proof.
  unfold dict_update, keys.
  induction over as [|[k v] rest IH]; simpl; intros Hnd base.
  - now rewrite app_nil_r.
  - inversion Hnd as [|? ? Hnotin Hnd']; subst.
    rewrite (IH Hnd'). fold (keys (dict_set k v base)). rewrite keys_dict_set.
    assert (Hsame : filter (fun k0 => negb (dict_has k0 (dict_set k v base))) (map fst rest)
                    = filter (fun k0 => negb (dict_has k0 base)) (map fst rest)).
    { apply filter_ext_in. intros k0 Hin. rewrite dict_has_set_other; [reflexivity|].
      intros ->. contradiction. }
    rewrite Hsame. unfold keys.
    destruct (dict_has k base); simpl; [reflexivity|].
    now rewrite <- app_assoc.
Qed.

Lemma merged_keys item track_item feature :
  keys (merged_properties (user_fields item) (track_fields track_item) feature)
  = keys (original_properties feature)
    ++ filter (fun k => negb (dict_has k (original_properties feature))) metadata_keys.
Proof.
  unfold merged_properties, overlay.
  rewrite keys_dict_update by apply track_fields_keys.
  rewrite keys_dict_update by apply user_fields_keys.
  rewrite <- app_assoc. f_equal.
  change metadata_keys with (keys (user_fields item) ++ keys (track_fields track_item)).
  rewrite filter_app. f_equal.
  apply filter_ext_in. intros k Hin. f_equal. unfold dict_has.
  rewrite dict_get_update by apply user_fields_keys.
  simpl in Hin.
  destruct Hin as [<-|[<-|[<-|[<-|[<-|[]]]]]]; reflexivity.
Qed.

Lemma emitted_keeps_keys emit p :
  has_merged_properties p (emitted emit p) -> keeps_keys p (emitted emit p).
Proof.
  intros H. eexists. split; [exact H|]. apply merged_keys.
Qed.

Lemma geojson_features_wf input_path output_path s data :
  files s input_path = Some (Json data) ->
  wf_doc false data = true ->
  final_features (snd (Geojson.process_json_file input_path output_path s))
  = map (emitted emit_A) (traversal eligible_A data).
Proof.
  intros Hfile Hwf.
  rewrite (@geojson_process_wf input_path output_path s data Hfile Hwf).
  apply contract_final_features.
Qed.

Lemma multipoint_features_wf input_path output_path s data :
  files s input_path = Some (Json data) ->
  wf_doc true data = true ->
  final_features (snd (Multipoint.process_json_file input_path output_path s))
  = map (emitted emit_B) (traversal eligible_B data).
Proof.
  intros Hfile Hwf.
  rewrite (@multipoint_process_wf input_path output_path s data Hfile Hwf).
  apply contract_final_features.
Qed.

(** X4.  No property is lost and the order of the keys is kept: for a
    well-formed document, the keys of the [properties] of every
    emitted feature are the keys of the source feature's properties,
    in their order, followed by those of the nine assigned keys that
    the source did not have, in the order [userId], [ageGroup],
    [countryCode], [gender], [trackId], [activity], [locationCountry],
    [summary], [resort]. *)
Theorem X4_property_keys input_path output_path s data :
  files s input_path = Some (Json data) ->
  (wf_doc false data = true ->
   Forall2 keeps_keys (traversal eligible_A data)
     (final_features (snd (Geojson.process_json_file input_path output_path s))))
  /\ (wf_doc true data = true ->
      Forall2 keeps_keys (traversal eligible_B data)
        (final_features (snd (Multipoint.process_json_file input_path output_path s)))).
Proof.
  intros Hfile. split; intros Hwf.
  - rewrite (@geojson_features_wf input_path output_path s data Hfile Hwf).
    apply Forall2_map_r.
    eapply Forall_impl; [|apply traversal_wf; exact Hwf].
    intros p Hp. apply emitted_keeps_keys. now apply emit_A_merged.
  - rewrite (@multipoint_features_wf input_path output_path s data Hfile Hwf).
    apply Forall2_map_r. apply Forall_forall. intros p _.
    apply emitted_keeps_keys. apply emit_B_merged.
Qed.

Lemma X4_property_keys_witness :
  Forall2 keeps_keys (traversal eligible_A two_users_doc)
    (final_features
       (snd (Geojson.process_json_file input_path output_path (world (Json two_users_doc)))))
  /\ Forall2 keeps_keys (traversal eligible_B two_users_doc)
       (final_features
          (snd (Multipoint.process_json_file input_path output_path
                  (world (Json two_users_doc))))).
Proof.
  destruct (@X4_property_keys input_path output_path (world (Json two_users_doc))
              two_users_doc eq_refl) as [HA HB].
  split; [apply (HA eq_refl) | apply (HB eq_refl)].
Defined.

(** *** The members of a feature *)

Lemma emit_A_keeps_members p :
  wf_feature false (the_feature p) = true -> keeps_members p (emitted emit_A p).
Proof.
  destruct p as [item track_item feature]. simpl.
  destruct feature as [| | | | | |fd]; try discriminate. intros _.
  unfold keeps_members, emitted, emit_A. simpl.
  eexists fd, _. repeat split.
  - apply keys_dict_set.
  - intros k Hk. apply dict_get_set_other. congruence.
Qed.

(** X5.  Variant A keeps the feature: for a well-formed document every
    emitted feature has the members of its source feature, under the
    same keys in the same order ([properties] added at the end when the
    source had none), and under every key but [properties] the value
    the source had (its [type], its [geometry], its [id], ...). *)
Theorem X5_geojson_keeps_members input_path output_path s data :
  files s input_path = Some (Json data) ->
  wf_doc false data = true ->
  Forall2 keeps_members (traversal eligible_A data)
    (final_features (snd (Geojson.process_json_file input_path output_path s))).
Proof.
  intros Hfile Hwf.
  rewrite (@geojson_features_wf input_path output_path s data Hfile Hwf).
  apply Forall2_map_r.
  eapply Forall_impl; [|apply traversal_wf; exact Hwf].
  intros p Hp. now apply emit_A_keeps_members.
Qed.

Lemma X5_geojson_keeps_members_witness :
  Forall2 keeps_members (traversal eligible_A two_users_doc)
    (final_features
       (snd (Geojson.process_json_file input_path output_path
               (world (Json two_users_doc))))).
Proof.
  apply (@X5_geojson_keeps_members input_path output_path (world (Json two_users_doc))
           two_users_doc eq_refl eq_refl).
Defined.

Lemma wf_feature_weaken feature :
  wf_feature true feature = true -> wf_feature false feature = true.
Proof.
  destruct feature; simpl; try discriminate.
  intros H. apply andb_true_iff in H. destruct H as [H _]. now rewrite H.
Qed.

Lemma forallb_impl {A} (p q : A -> bool) (xs : list A) :
  (forall x, p x = true -> q x = true) -> forallb p xs = true -> forallb q xs = true.
Proof.
  intros Hpq. rewrite !forallb_forall. auto.
Qed.

Lemma wf_doc_weaken data : wf_doc true data = true -> wf_doc false data = true.
Proof.
  unfold wf_doc. destruct data as [| | | | | |d]; try discriminate.
  destruct (dict_get "items" d) as [[| | | | |its|]|]; try discriminate; auto.
  apply forallb_impl. intros item. unfold wf_item.
  destruct item as [| | | | | |di]; try discriminate.
  destruct (dict_get "tracks" di) as [[| | | | |ts|]|]; auto.
  apply forallb_impl. intros t. unfold wf_track.
  destruct t as [| | | | | |dt]; try discriminate.
  destruct (dict_get "track" dt) as [[| | | | | |c]|]; auto.
  destruct (dict_get "features" c) as [[| | | | |fs|]|]; auto.
  apply forallb_impl. apply wf_feature_weaken.
Qed.

Lemma emit_A_geometry user track_item fd :
  field "geometry" (emit_A user track_item (VDict fd)) = field "geometry" (VDict fd).
Proof. apply emit_A_other_entries. discriminate. Qed.

Lemma to_multipoint_emit_A p :
  wf_feature false (the_feature p) = true ->
  eligible_B (emitted emit_A p) = eligible_B (the_feature p)
  /\ to_multipoint (emitted emit_A p) = emitted emit_B p.
Proof.
  destruct p as [item track_item feature]. simpl.
  destruct feature as [| | | | | |fd]; try discriminate. intros _.
  unfold emitted, to_multipoint, emit_B, eligible_B, coordinates_of, geometry_of.
  cbn [of_item of_track the_feature].
  rewrite !emit_A_geometry. split; [reflexivity|].
  unfold emit_A. cbn [field]. now rewrite dict_get_set_same.
Qed.

Lemma map_filter_commute {A B} (f : A -> B) (p : A -> bool) (q : B -> bool) (g : B -> B)
    (h : A -> B) (xs : list A) :
  Forall (fun x => q (f x) = p x /\ g (f x) = h x) xs ->
  map g (filter q (map f xs)) = map h (filter p xs).
Proof.
  induction 1 as [|x rest [Hq Hg] _ IH]; simpl; [reflexivity|].
  rewrite Hq. destruct (p x); simpl; now rewrite ?Hg, IH.
Qed.

(** X6.  Variant B is Variant A followed by a filter and a relabelling:
    on a document well-formed for both, the features Variant B emits
    are those Variant A emits, without the ones whose [geometry.type]
    is not "LineString", each cut down to its [geometry], now a
    MultiPoint over the same coordinates, and its [properties], the
    same mapping; so Variant B never emits more features than
    Variant A. *)
Theorem X6_multipoint_of_geojson input_path output_path s data :
  files s input_path = Some (Json data) ->
  wf_doc true data = true ->
  let a := final_features (snd (Geojson.process_json_file input_path output_path s)) in
  let b := final_features (snd (Multipoint.process_json_file input_path output_path s)) in
  b = map to_multipoint (filter eligible_B a)
  /\ (List.length b <= List.length a)%nat.
Proof.
  intros Hfile Hwf. cbv zeta.
  pose proof (wf_doc_weaken data Hwf) as HwfA.
  rewrite (@geojson_features_wf input_path output_path s data Hfile HwfA).
  rewrite (@multipoint_features_wf input_path output_path s data Hfile Hwf).
  assert (Heq : map (emitted emit_B) (traversal eligible_B data)
                = map to_multipoint
                    (filter eligible_B (map (emitted emit_A) (traversal eligible_A data)))).
  { rewrite traversal_filter. symmetry. apply map_filter_commute.
    eapply Forall_impl; [|apply traversal_wf; exact HwfA].
    intros p Hp. now apply to_multipoint_emit_A. }
  split; [exact Heq|].
  rewrite Heq, length_map.
  etransitivity; [apply filter_length_le|]. reflexivity.
Qed.

Lemma X6_multipoint_of_geojson_witness :
  final_features
    (snd (Multipoint.process_json_file input_path output_path
            (world (Json two_users_doc))))
  = map to_multipoint
      (filter eligible_B
         (final_features
            (snd (Geojson.process_json_file input_path output_path
                    (world (Json two_users_doc)))))).
Proof.
  apply (@X6_multipoint_of_geojson input_path output_path (world (Json two_users_doc))
           two_users_doc eq_refl eq_refl).
Defined.


(** *** A track record that is passed over *)


















(* ================================================================== *)
(** ** File names *)
(* ================================================================== *)

Lemma string_eqb_length (s t : string) :
  String.eqb s t = true -> String.length s = String.length t.
Proof. intros H. apply String.eqb_eq in H. now subst. Qed.

Lemma string_app_length (a b : string) :
  String.length (a ++ b)%string = (String.length a + String.length b)%nat.
Proof. induction a; simpl; auto. Qed.

Lemma string_app_assoc (a b c : string) :
  ((a ++ b) ++ c)%string = (a ++ b ++ c)%string.
Proof. induction a; simpl; congruence. Qed.

Lemma string_app_nil_r (a : string) : (a ++ EmptyString)%string = a.
Proof. induction a; simpl; congruence. Qed.

Lemma string_app_inv_head (a b c : string) :
  (a ++ b)%string = (a ++ c)%string -> b = c.
Proof. induction a; simpl; intros H; [exact H | injection H; auto]. Qed.

Lemma endswith_cons (a : ascii) (rest suffix : string) :
  endswith (String a rest) suffix
  = if String.eqb (String a rest) suffix then true else endswith rest suffix.
Proof. reflexivity. Qed.

Lemma endswith_exists (s suffix : string) :
  endswith s suffix = true <-> exists p, s = (p ++ suffix)%string.
Proof.
  split.
  - induction s as [|a rest IH]; intros H.
    + destruct suffix; [|discriminate H]. now exists EmptyString.
    + rewrite endswith_cons in H.
      destruct (String.eqb (String a rest) suffix) eqn:E.
      * apply String.eqb_eq in E. exists EmptyString. now subst.
      * destruct (IH H) as [p ->]. now exists (String a p).
  - intros [p ->]. induction p as [|a p IH].
    + cbn [String.append]. destruct suffix; [reflexivity|].
      rewrite endswith_cons. now rewrite String.eqb_refl.
    + cbn [String.append]. rewrite endswith_cons, IH. now destruct (String.eqb _ _).
Qed.

(** A suffix no longer than the last part is looked for in the last
    part. *)
Lemma endswith_app (a b suffix : string) :
  (String.length suffix <= String.length b)%nat ->
  endswith (a ++ b) suffix = endswith b suffix.
Proof.
  intros Hlen. induction a as [|c a IH]; [reflexivity|].
  cbn [String.append]. rewrite endswith_cons.
  destruct (String.eqb (String c (a ++ b)) suffix) eqn:E; [|exact IH].
  apply string_eqb_length in E. simpl in E. rewrite string_app_length in E. lia.
Qed.

Lemma lower_app (a b : string) : lower (a ++ b) = (lower a ++ lower b)%string.
Proof. induction a; simpl; congruence. Qed.

Lemma lower_app_inv (s a b : string) :
  lower s = (a ++ b)%string ->
  exists s1 s2, s = (s1 ++ s2)%string /\ lower s1 = a /\ lower s2 = b.
Proof.
  revert s. induction a as [|c a IH]; simpl; intros s H.
  - exists EmptyString, s. auto.
  - destruct s as [|c' s]; simpl in H; [discriminate|].
    injection H as Hc Hs. destruct (IH _ Hs) as (s1 & s2 & -> & H1 & H2).
    exists (String c' s1), s2. simpl. now rewrite Hc, H1.
Qed.

Lemma lower_char_dot (c : ascii) : lower_char c = "."%char -> c = "."%char.
Proof.
  destruct c as [[] [] [] [] [] [] [] []]; vm_compute; intros H;
    solve [reflexivity | discriminate H].
Qed.

Lemma lower_char_letter (c : ascii) :
  In (lower_char c) ["j"; "s"; "o"; "n"]%char -> Ascii.eqb c "." = false.
Proof.
  intros H. destruct (Ascii.eqb c ".") eqn:E; [|reflexivity].
  apply Ascii.eqb_eq in E. subst c. vm_compute in H.
  repeat (destruct H as [H|H]; [discriminate H|]). contradiction.
Qed.

Lemma rfind_app (c : ascii) (a b : string) :
  rfind c (a ++ b)
  = match rfind c b with
    | Some i => Some (String.length a + i)%nat
    | None => rfind c a
    end.
Proof.
  induction a as [|x a IH]; simpl.
  - now destruct (rfind c b).
  - rewrite IH. now destruct (rfind c b).
Qed.

Lemma split_at_app (a b : string) : split_at (String.length a) (a ++ b) = (a, b).
Proof.
  induction a as [|x a IH]; simpl.
  - now destruct b.
  - now rewrite IH.
Qed.

Lemma split_at_join (i : nat) (p : string) :
  (fst (split_at i p) ++ snd (split_at i p))%string = p.
Proof.
  revert i. induction p as [|a p IH]; intros [|i]; simpl; auto.
  specialize (IH i). destruct (split_at i p). simpl in *. congruence.
Qed.

(** A name that passes the filter ends in a dot and four letters. *)
Lemma is_json_parts (filename : string) :
  is_json filename = true ->
  exists stem ext,
    filename = (stem ++ ext)%string /\ lower ext = ".json"
    /\ rfind "." ext = Some 0%nat.
Proof.
  unfold is_json. intros H. apply endswith_exists in H. destruct H as [p Hp].
  destruct (lower_app_inv _ _ _ Hp) as (stem & ext & -> & _ & Hext).
  exists stem, ext. repeat split; auto.
  destruct ext as [|c0 [|c1 [|c2 [|c3 [|c4 [|c5 ext]]]]]]; try discriminate.
  simpl in Hext. injection Hext as H0 H1 H2 H3 H4.
  apply lower_char_dot in H0. subst c0. simpl.
  rewrite (lower_char_letter c4), (lower_char_letter c3),
    (lower_char_letter c2), (lower_char_letter c1);
    [reflexivity | rewrite H1 | rewrite H2 | rewrite H3 | rewrite H4]; simpl; auto.
Qed.

Lemma splitext_parts (stem ext : string) :
  rfind "." ext = Some 0%nat ->
  splitext (stem ++ ext)
  = if all_dots stem then ((stem ++ ext)%string, EmptyString) else (stem, ext).
Proof.
  intros Hext. unfold splitext. rewrite rfind_app, Hext, Nat.add_0_r, split_at_app.
  reflexivity.
Qed.

Lemma lower_length (s : string) : String.length (lower s) = String.length s.
Proof. induction s; simpl; congruence. Qed.

(** X8.  The name of the output file.  [os.path.splitext] cuts a name
    in two parts that make up the name again.  For a name that passes
    the filter of the drivers, the base name is the name without its
    last five characters (".json" in any case of the letters), and the
    output name is that base name and the suffix of the variant
    (Track.JSON gives Track.geojson); unless nothing or only dots come
    before the ".json", and then the whole name is kept (.json gives
    .json.geojson). *)
Theorem X8_output_filename suffix filename :
  (fst (splitext filename) ++ snd (splitext filename))%string = filename
  /\ (is_json filename = true ->
      let stem := fst (split_at (String.length filename - 5) filename) in
      output_filename suffix filename
      = if all_dots stem then (filename ++ suffix)%string else (stem ++ suffix)%string).
Proof.
  split.
  - unfold splitext. destruct (rfind "." filename) as [i|]; simpl.
    + destruct (all_dots (fst (split_at i filename))); simpl.
      * apply string_app_nil_r.
      * apply split_at_join.
    + apply string_app_nil_r.
  - intros Hjson. destruct (is_json_parts _ Hjson) as (stem & ext & -> & Hlower & Hdot).
    assert (Hlen : String.length ext = 5%nat).
    { rewrite <- lower_length, Hlower. reflexivity. }
    cbv zeta. rewrite string_app_length, Hlen, Nat.add_sub, split_at_app.
    unfold output_filename. rewrite (@splitext_parts stem ext Hdot).
    cbn [fst]. now destruct (all_dots stem).
Qed.

Lemma X8_output_filename_witness :
  output_filename ".geojson" "Track.JSON" = "Track.geojson"
  /\ output_filename "_multipoint.geojson" ".json" = ".json_multipoint.geojson".
Proof.
  split.
  - exact (proj2 (@X8_output_filename ".geojson" "Track.JSON") eq_refl).
  - exact (proj2 (@X8_output_filename "_multipoint.geojson" ".json") eq_refl).
Defined.

Lemma not_json_suffix (base suffix : string) :
  lower suffix = suffix ->
  (5 <= String.length suffix)%nat ->
  endswith suffix ".json" = false ->
  is_json (base ++ suffix) = false.
Proof.
  intros Hlower Hlen Hends. unfold is_json.
  rewrite lower_app, Hlower, endswith_app; [exact Hends | exact Hlen].
Qed.

Lemma is_geojson_suffix (base suffix : string) :
  lower suffix = suffix ->
  (8 <= String.length suffix)%nat ->
  endswith suffix ".geojson" = true ->
  is_geojson (base ++ suffix) = true.
Proof.
  intros Hlower Hlen Hends. unfold is_geojson.
  rewrite lower_app, Hlower, endswith_app; [exact Hends | exact Hlen].
Qed.

Lemma find_geojson_files_in join root dirs files file :
  is_geojson file = true -> In file files ->
  In (join root file) (Heatmap.find_geojson_files join [(root, dirs, files)]).
Proof.
  intros Hgeo Hin. unfold Heatmap.find_geojson_files. simpl. rewrite app_nil_r.
  apply in_map. apply filter_In. split; [exact Hin | exact Hgeo].
Qed.

(** X9.  The output names against the filters.  Whatever the input
    name, the output name of either driver does not pass the ".json"
    filter of the drivers (what a run writes is no input of a later
    run, also when the output directory is the input directory), it
    does pass the ".geojson" filter of [find_geojson_files] of the heat
    map script, which finds the file in the directory it is listed
    in, and the two drivers give the same input name different output
    names. *)
Theorem X9_output_names filename :
  let geojson := output_filename ".geojson" filename in
  let multipoint := output_filename "_multipoint.geojson" filename in
  is_json geojson = false
  /\ is_json multipoint = false
  /\ is_geojson geojson = true
  /\ is_geojson multipoint = true
  /\ geojson <> multipoint
  /\ (forall join root dirs files,
        (In geojson files ->
         In (join root geojson) (Heatmap.find_geojson_files join [(root, dirs, files)]))
        /\ (In multipoint files ->
            In (join root multipoint)
               (Heatmap.find_geojson_files join [(root, dirs, files)]))).
Proof.
  cbv zeta. unfold output_filename.
  assert (H1 : is_geojson (fst (splitext filename) ++ ".geojson") = true).
  { apply is_geojson_suffix; [reflexivity | simpl; lia | reflexivity]. }
  assert (H2 : is_geojson (fst (splitext filename) ++ "_multipoint.geojson") = true).
  { apply is_geojson_suffix; [reflexivity | simpl; lia | reflexivity]. }
  repeat split.
  - apply not_json_suffix; [reflexivity | simpl; lia | reflexivity].
  - apply not_json_suffix; [reflexivity | simpl; lia | reflexivity].
  - exact H1.
  - exact H2.
  - intros H. apply string_app_inv_head in H. discriminate H.
  - now apply find_geojson_files_in.
  - now apply find_geojson_files_in.
Qed.

Lemma X9_output_names_witness :
  In (BatchExamples.slash "out" "a.geojson")
     (Heatmap.find_geojson_files BatchExamples.slash
        [("out", [], ["readme.txt"; "a.geojson"])]).
Proof.
  destruct (@X9_output_names "a.json") as (_ & _ & _ & _ & _ & Hfind).
  apply (proj1 (Hfind BatchExamples.slash "out" [] ["readme.txt"; "a.geojson"])).
  right. left. reflexivity.
Defined.


(* ================================================================== *)
(** ** The batch drivers *)
(* ================================================================== *)

Lemma makedirs_keeps output_dir w ready :
  makedirs output_dir w = inr ready ->
  console ready = console w
  /\ os_files ready = os_files w
  /\ os_fault ready = os_fault w
  /\ os_dirname ready = os_dirname w
  /\ os_unlistable ready = os_unlistable w
  /\ os_isdir ready output_dir = true.
Proof.
  unfold makedirs.
  destruct (os_isdir w output_dir) eqn:Hout.
  - intros [= <-]. auto 6.
  - destruct (os_files w output_dir); [discriminate|].
    destruct (os_unmakeable w output_dir); [discriminate|].
    intros [= <-]. simpl. rewrite String.eqb_refl. auto 6.
Qed.

Section CallFacts.

Variable process : string -> string -> M bool.

Hypothesis process_cases : forall input_path output_path s,
  let run := process input_path output_path s in
  unwritable (snd run) = unwritable s
  /\ ((fst run <> Normal true /\ files (snd run) = files s)
      \/ (exists x rest content,
            final_features (snd run) = x :: rest
            /\ unwritable s output_path <> Some OpenFails
            /\ (content = written_document (x :: rest) \/ content = NotJson)
            /\ (fst run = Normal true -> content = written_document (x :: rest))
            /\ (unwritable s output_path = None -> fst run = Normal true)
            /\ files (snd run)
               = fun p => if String.eqb p output_path then Some content else files s p)).

Lemma call_fst input_filepath output_filepath w :
  fst (call process input_filepath output_filepath w)
  = fst (process input_filepath output_filepath
           (mkState (os_read w) (os_unwritable w) [] [])).
Proof. unfold call. now destruct (process _ _ _). Qed.

(** A call changes the console by the lines of the script and the
    files by the output file, if at all; a directory is no output
    file. *)
Lemma call_keeps input_filepath output_filepath w :
  let run := call process input_filepath output_filepath w in
  os_isdir (snd run) = os_isdir w
  /\ os_fault (snd run) = os_fault w
  /\ os_dirname (snd run) = os_dirname w
  /\ (exists msgs, console (snd run) = console w ++ map Script msgs)
  /\ (forall p, p <> output_filepath -> os_files (snd run) p = os_files w p)
  /\ (forall p, os_read (snd run) p = os_read w p
                \/ p = output_filepath
                   /\ (os_read (snd run) p = Some NotJson
                       \/ exists feats,
                            os_read (snd run) p = Some (written_document feats))).
Proof.
  cbv zeta. unfold call.
  destruct (process_cases input_filepath output_filepath
              (mkState (os_read w) (os_unwritable w) [] [])) as [_ Hfiles].
  destruct (process input_filepath output_filepath _) as [r s]. simpl in *.
  split; [reflexivity|]. split; [reflexivity|]. split; [reflexivity|].
  split; [now exists (stdout s)|].
  destruct Hfiles as [[_ H]|(x & rest & content & _ & Hopen & Hcontent & _ & _ & H)];
    rewrite H; unfold os_read; simpl.
  - split; intros p; [intros _|left]; now destruct (os_isdir w p).
  - split; intros p.
    + intros Hp. apply String.eqb_neq in Hp. rewrite Hp. now destruct (os_isdir w p).
    + destruct (os_isdir w p) eqn:Hdir; [now left|].
      destruct (String.eqb p output_filepath) eqn:E; [|now left].
      apply String.eqb_eq in E. right. split; [exact E|].
      destruct Hcontent as [->| ->]; [right; now exists (x :: rest) | now left].
Qed.

End CallFacts.

Lemma unwritable_keeps (w w' : os) :
  os_isdir w' = os_isdir w -> os_fault w' = os_fault w -> os_dirname w' = os_dirname w ->
  os_unwritable w' = os_unwritable w.
Proof. unfold os_unwritable. now intros -> -> ->. Qed.

Section LoopFacts.

Variable join : string -> string -> string.
Variable process : string -> string -> M bool.
Variable suffix : string.
Variables input_dir output_dir : string.

Hypothesis process_cases : forall input_path output_path s,
  let run := process input_path output_path s in
  unwritable (snd run) = unwritable s
  /\ ((fst run <> Normal true /\ files (snd run) = files s)
      \/ (exists x rest content,
            final_features (snd run) = x :: rest
            /\ unwritable s output_path <> Some OpenFails
            /\ (content = written_document (x :: rest) \/ content = NotJson)
            /\ (fst run = Normal true -> content = written_document (x :: rest))
            /\ (unwritable s output_path = None -> fst run = Normal true)
            /\ files (snd run)
               = fun p => if String.eqb p output_path then Some content else files s p)).

(** What holds of the names still to come and the file system before
    each round of the loop, and of each name and its outcome. *)
Variable Inv : list string -> os -> Prop.
Variable Ok : string -> bool -> Prop.

Hypothesis Inv_skip : forall filename rest w,
  Inv (filename :: rest) w -> is_json filename = false -> Inv rest w.

Hypothesis Inv_call : forall filename rest w b l,
  Inv (filename :: rest) w -> is_json filename = true ->
  fst (call process (join input_dir filename)
         (join output_dir (output_filename suffix filename))
         (say (Processing filename) w)) = Normal b ->
  Ok filename b
  /\ Inv rest
       (say l (snd (call process (join input_dir filename)
                      (join output_dir (output_filename suffix filename))
                      (say (Processing filename) w)))).

(** What the loop prints and writes, and its two counters. *)
Lemma convert_loop_blocks names :
  forall file_count success_count w,
    Inv names w ->
    let run := convert_loop join process suffix input_dir output_dir names
                 file_count success_count w in
    exists blocks,
      Forall (fun b => Ok (block_name b) (block_ok b)) blocks
      /\ match fst run with
         | Done (file_count', success_count') =>
             map block_name blocks = filter is_json names
             /\ console (snd run) = console w ++ flat_map (render suffix) blocks
             /\ file_count' = (file_count + Z.of_nat (List.length blocks))%Z
             /\ success_count'
                = (success_count + Z.of_nat (List.length (filter block_ok blocks)))%Z
             /\ (forall p,
                   no_output_of join suffix output_dir (map block_name blocks) p ->
                   os_files (snd run) p = os_files w p)
         | Exit _ => False
         | Abort e =>
             exists filename msgs after,
               (exists e', e = ScriptError e')
               /\ filter is_json names = map block_name blocks ++ filename :: after
               /\ console (snd run)
                  = console w ++ flat_map (render suffix) blocks
                    ++ Processing filename :: map Script msgs
               /\ (forall p,
                     no_output_of join suffix output_dir
                       (map block_name blocks ++ [filename]) p ->
                     os_files (snd run) p = os_files w p)
         end.
Proof.
  induction names as [|filename rest IH]; intros file_count success_count w HInv;
    cbv zeta.
  - simpl. exists []. split; [constructor|]. simpl. rewrite app_nil_r.
    repeat split; lia.
  - cbn [convert_loop filter]. fold (is_json filename).
    destruct (is_json filename) eqn:Hjson;
      [|apply IH; now apply (Inv_skip HInv)].
    change (fst (splitext filename) ++ suffix)%string
      with (output_filename suffix filename).
    set (ip := join input_dir filename).
    set (op := join output_dir (output_filename suffix filename)).
    set (w1 := say (Processing filename) w).
    destruct (@call_keeps process process_cases ip op w1)
      as (_ & _ & _ & [msgs Hconsole] & Hframe & _).
    pose proof (fun b l => @Inv_call filename rest w b l HInv Hjson) as Hcall.
    fold ip op w1 in Hcall.
    destruct (call process ip op w1) as [[[|]|e] w2]; simpl in Hconsole, Hframe, Hcall.
    + destruct (Hcall true (ConvertedTo (output_filename suffix filename)) eq_refl)
        as [Hok Hnext].
      specialize (IH (file_count + 1)%Z (success_count + 1)%Z _ Hnext).
      cbv zeta in IH. destruct IH as (blocks & Hoks & IH).
      exists (mkBlock filename msgs true :: blocks).
      split; [constructor; [exact Hok | exact Hoks]|].
      destruct (fst (convert_loop _ _ _ _ _ _ _ _ _)) as [[fc sc]|c|e'];
        [|contradiction|].
      * destruct IH as (Hnames & Hc & -> & -> & Hf).
        split; [simpl; now rewrite Hnames|].
        split; [rewrite Hc; simpl; rewrite Hconsole; unfold render; simpl;
                now rewrite <- !app_assoc|].
        split; [simpl List.length; lia|].
        split; [simpl filter; simpl List.length; lia|].
        intros p Hp. rewrite Hf.
        -- simpl. apply Hframe. apply Hp. now left.
        -- intros f Hin. apply Hp. now right.
      * destruct IH as (f & ms & after & He & Hnames & Hc & Hf).
        exists f, ms, after.
        split; [exact He|].
        split; [simpl; now rewrite Hnames|].
        split; [rewrite Hc; simpl; rewrite Hconsole; unfold render; simpl;
                now rewrite <- !app_assoc|].
        intros p Hp. rewrite Hf.
        -- simpl. apply Hframe. apply Hp. now left.
        -- intros f' Hin. apply Hp. now right.
    + destruct (Hcall false (FailedToConvert filename) eq_refl) as [Hok Hnext].
      specialize (IH (file_count + 1)%Z success_count _ Hnext).
      cbv zeta in IH. destruct IH as (blocks & Hoks & IH).
      exists (mkBlock filename msgs false :: blocks).
      split; [constructor; [exact Hok | exact Hoks]|].
      destruct (fst (convert_loop _ _ _ _ _ _ _ _ _)) as [[fc sc]|c|e'];
        [|contradiction|].
      * destruct IH as (Hnames & Hc & -> & -> & Hf).
        split; [simpl; now rewrite Hnames|].
        split; [rewrite Hc; simpl; rewrite Hconsole; unfold render; simpl;
                now rewrite <- !app_assoc|].
        split; [simpl List.length; lia|].
        split; [simpl filter; lia|].
        intros p Hp. rewrite Hf.
        -- simpl. apply Hframe. apply Hp. now left.
        -- intros f Hin. apply Hp. now right.
      * destruct IH as (f & ms & after & He & Hnames & Hc & Hf).
        exists f, ms, after.
        split; [exact He|].
        split; [simpl; now rewrite Hnames|].
        split; [rewrite Hc; simpl; rewrite Hconsole; unfold render; simpl;
                now rewrite <- !app_assoc|].
        intros p Hp. rewrite Hf.
        -- simpl. apply Hframe. apply Hp. now left.
        -- intros f' Hin. apply Hp. now right.
    + exists []. split; [constructor|]. simpl.
      exists filename, msgs, (filter is_json rest).
      split; [now exists e|]. split; [reflexivity|].
      split; [rewrite Hconsole; now rewrite <- app_assoc|].
      intros p Hp. apply Hframe. apply Hp. now left.
Qed.

End LoopFacts.

Section DirectoryFacts.

Variable join : string -> string -> string.
Variable process : string -> string -> M bool.
Variable suffix : string.

Hypothesis process_cases : forall input_path output_path s,
  let run := process input_path output_path s in
  unwritable (snd run) = unwritable s
  /\ ((fst run <> Normal true /\ files (snd run) = files s)
      \/ (exists x rest content,
            final_features (snd run) = x :: rest
            /\ unwritable s output_path <> Some OpenFails
            /\ (content = written_document (x :: rest) \/ content = NotJson)
            /\ (fst run = Normal true -> content = written_document (x :: rest))
            /\ (unwritable s output_path = None -> fst run = Normal true)
            /\ files (snd run)
               = fun p => if String.eqb p output_path then Some content else files s p)).

(** The loop of a run, from the file system [ready] that
    [os.makedirs] leaves. *)
Lemma convert_directory_loop input_dir output_dir ready :
  let run := convert_loop join process suffix input_dir output_dir
               (os_listdir ready input_dir) 0 0 (say (OutputSavedIn output_dir) ready) in
  exists blocks,
    match fst run with
    | Done (file_count, success_count) =>
        map block_name blocks = filter is_json (os_listdir ready input_dir)
        /\ console (snd run)
           = (console ready ++ [OutputSavedIn output_dir])
             ++ flat_map (render suffix) blocks
        /\ file_count = Z.of_nat (List.length blocks)
        /\ success_count = Z.of_nat (List.length (filter block_ok blocks))
        /\ (forall p,
              no_output_of join suffix output_dir (map block_name blocks) p ->
              os_files (snd run) p = os_files ready p)
    | Exit _ => False
    | Abort e =>
        exists filename msgs after,
          (exists e', e = ScriptError e')
          /\ filter is_json (os_listdir ready input_dir)
             = map block_name blocks ++ filename :: after
          /\ console (snd run)
             = (console ready ++ [OutputSavedIn output_dir])
               ++ flat_map (render suffix) blocks
               ++ Processing filename :: map Script msgs
          /\ (forall p,
                no_output_of join suffix output_dir
                  (map block_name blocks ++ [filename]) p ->
                os_files (snd run) p = os_files ready p)
    end.
Proof.
  cbv zeta.
  destruct (@convert_loop_blocks join process suffix input_dir output_dir process_cases
              (fun _ _ => True) (fun _ _ => True)
              (fun _ _ _ _ _ => I) (fun _ _ _ _ _ _ _ _ => conj I I)
              (os_listdir ready input_dir) 0%Z 0%Z
              (say (OutputSavedIn output_dir) ready) I) as (blocks & _ & H).
  exists blocks. exact H.
Qed.

Lemma convert_directory_done input_dir output_dir w :
  fst (convert_directory join process suffix input_dir output_dir w) = Done tt ->
  accounted suffix input_dir output_dir w
    (convert_directory join process suffix input_dir output_dir w).
Proof.
  unfold convert_directory, accounted, listed.
  destruct (os_isdir w input_dir) eqn:Hin; simpl; [|discriminate].
  destruct (makedirs output_dir w) as [e|ready] eqn:Hmk; [discriminate|].
  destruct (makedirs_keeps output_dir w Hmk) as (Hcons & _).
  simpl os_unlistable. simpl os_listdir.
  destruct (os_unlistable ready input_dir); [discriminate|].
  destruct (convert_directory_loop input_dir output_dir ready) as (blocks & H).
  destruct (convert_loop _ _ _ _ _ _ _ _ _) as [[[fc sc]|c|e] w2]; simpl in *;
    try discriminate.
  intros _. destruct H as (Hnames & Hc & -> & -> & _).
  exists blocks. split; [exact Hnames|].
  unfold summary. rewrite Hc, Hcons. now rewrite <- !app_assoc.
Qed.


Lemma convert_directory_files input_dir output_dir w :
  wrote_only_outputs join suffix input_dir output_dir w
    (convert_directory join process suffix input_dir output_dir w).
Proof.
  unfold wrote_only_outputs, convert_directory, listed.
  destruct (os_isdir w input_dir) eqn:Hin; simpl; [|reflexivity].
  destruct (makedirs output_dir w) as [e0|ready] eqn:Hmk; [reflexivity|].
  destruct (makedirs_keeps output_dir w Hmk) as (_ & Hfiles & _).
  simpl os_unlistable. simpl os_listdir.
  destruct (os_unlistable ready input_dir); [intros p _; simpl; now rewrite Hfiles|].
  destruct (convert_directory_loop input_dir output_dir ready) as (blocks & H).
  destruct (convert_loop _ _ _ _ _ _ _ _ _) as [[[fc sc]|c|e1] w2]; simpl in *;
    [|contradiction|].
  - destruct H as (Hnames & _ & _ & _ & Hf).
    intros p Hp. rewrite Hf; [now rewrite Hfiles|]. now rewrite Hnames.
  - destruct H as (filename & msgs & after & _ & Hnames & _ & Hf).
    intros p Hp. rewrite Hf; [now rewrite Hfiles|].
    intros f Hinf. apply Hp. rewrite Hnames.
    apply in_app_or in Hinf. apply in_or_app.
    destruct Hinf as [Hinf|[<-|[]]]; [now left | right; now left].
Qed.



End DirectoryFacts.

(** X10.  The tally of a run that reaches its end.  When
    [convert_directory_to_geojson] or [convert_directory_to_multipoint]
    returns, it has printed, after the line about the output
    directory, for each name of the input directory that passes the
    ".json" filter, in the order of the listing, one block: the
    "processing" line with the name, then what [process_json_file]
    printed, then one line, "converted" with the output name or
    "failed" with the name; and after the blocks the summary, whose
    total is the number of blocks, whose successes are the number of
    blocks that end in "converted", and whose last number is the
    difference of the two.  The listing is the one [os.listdir] gives
    once the output directory is there. *)
Theorem X10_summary join input_dir output_dir w :
  (fst (convert_directory_to_geojson join input_dir output_dir w) = Done tt ->
   accounted ".geojson" input_dir output_dir w
     (convert_directory_to_geojson join input_dir output_dir w))
  /\ (fst (convert_directory_to_multipoint join input_dir output_dir w) = Done tt ->
      accounted "_multipoint.geojson" input_dir output_dir w
        (convert_directory_to_multipoint join input_dir output_dir w)).
Proof.
  split; apply convert_directory_done; intros ip op s;
    apply process_json_file_cases;
    auto using wl_geojson_feature_body, wl_multipoint_feature_body.
Qed.

Lemma X10_summary_witness :
  accounted ".geojson" "in" "out" BatchExamples.good_machine
    (convert_directory_to_geojson BatchExamples.slash "in" "out"
       BatchExamples.good_machine)
  /\ accounted "_multipoint.geojson" "in" "out" BatchExamples.good_machine
       (convert_directory_to_multipoint BatchExamples.slash "in" "out"
          BatchExamples.good_machine).
Proof.
  destruct (@X10_summary BatchExamples.slash "in" "out" BatchExamples.good_machine)
    as [HA HB].
  split; [apply HA | apply HB]; reflexivity.
Defined.



(** X12.  What a run writes.  However it ends, a run of either driver
    leaves every file as it was except the output files (the output
    directory joined with the output name) of the names of the input
    directory that pass the filter: an input file is never written to
    unless its path is also such an output path. *)
Theorem X12_wrote_only_outputs join input_dir output_dir w :
  wrote_only_outputs join ".geojson" input_dir output_dir w
    (convert_directory_to_geojson join input_dir output_dir w)
  /\ wrote_only_outputs join "_multipoint.geojson" input_dir output_dir w
       (convert_directory_to_multipoint join input_dir output_dir w).
Proof.
  split; apply convert_directory_files; intros input_path output_path s;
    apply process_json_file_cases;
    auto using wl_geojson_feature_body, wl_multipoint_feature_body.
Qed.

Lemma X12_wrote_only_outputs_witness :
  os_files
    (snd (convert_directory_to_geojson BatchExamples.slash "in" "out"
            BatchExamples.good_machine)) "in/a.json"
  = os_files BatchExamples.good_machine "in/a.json".
Proof.
  destruct (@X12_wrote_only_outputs BatchExamples.slash "in" "out"
              BatchExamples.good_machine) as [HA _].
  apply HA. intros filename Hin.
  vm_compute in Hin.
  destruct Hin as [<-|[<-|[<-|[]]]]; vm_compute; discriminate.
Defined.





Section WellFormedFacts.

Variable join : string -> string -> string.
Variable process : string -> string -> M bool.
Variable suffix : string.
Variable reads_geometry : bool.

Hypothesis process_cases : forall input_path output_path s,
  let run := process input_path output_path s in
  unwritable (snd run) = unwritable s
  /\ ((fst run <> Normal true /\ files (snd run) = files s)
      \/ (exists x rest content,
            final_features (snd run) = x :: rest
            /\ unwritable s output_path <> Some OpenFails
            /\ (content = written_document (x :: rest) \/ content = NotJson)
            /\ (fst run = Normal true -> content = written_document (x :: rest))
            /\ (unwritable s output_path = None -> fst run = Normal true)
            /\ files (snd run)
               = fun p => if String.eqb p output_path then Some content else files s p)).

Hypothesis process_total : forall input_path output_path s,
  match files s input_path with
  | Some (Json data) => wf_doc reads_geometry data = true
  | Some (Unloadable _) => False
  | _ => True
  end ->
  unwritable s output_path <> Some DumpRaises ->
  exists b, fst (process input_path output_path s) = Normal b.



End WellFormedFacts.



(** *** One file at a time *)

Ltac same_lines := eexists; split; rewrite <- ?app_assoc; reflexivity.

Lemma process_json_file_local feature_body names_path input_path output_path s1 s2 :
  (forall user track_item feature, writer_like (feature_body user track_item feature)) ->
  files s1 input_path = files s2 input_path ->
  unwritable s1 output_path = unwritable s2 output_path ->
  same_run output_path s1 s2
    (Extract.process_json_file feature_body names_path input_path output_path s1)
    (Extract.process_json_file feature_body names_path input_path output_path s2).
Proof.
  intros Hwl Hfiles Hunw. unfold same_run.
  destruct (files s2 input_path) as [[|data|e]|] eqn:Hfile2.
  - rewrite (@process_not_json feature_body names_path input_path output_path s1 Hfiles).
    rewrite (@process_not_json feature_body names_path input_path output_path s2 Hfile2).
    simpl. repeat split; [same_lines | discriminate].
  - destruct (@wl_traverse feature_body names_path Hwl input_path data)
      as (r & l & f & H).
    rewrite (@process_json_file_outcome feature_body names_path input_path output_path
               s1 data r l f Hfiles H).
    rewrite (@process_json_file_outcome feature_body names_path input_path output_path
               s2 data r l f Hfile2 H).
    destruct r as [[t|]|e]; simpl;
      try (repeat split; [same_lines | discriminate]).
    unfold contract. rewrite Hunw. destruct f as [|x rest]; simpl.
    + repeat split; [same_lines | discriminate].
    + destruct (unwritable s2 output_path) as [[|complete|]|]; simpl.
      * repeat split; [same_lines | discriminate].
      * repeat split; [same_lines | discriminate].
      * repeat split; [same_lines | discriminate].
      * repeat split; [same_lines|]. intros _. now rewrite String.eqb_refl.
  - rewrite (@process_not_loadable feature_body names_path input_path output_path s1 e
               Hfiles).
    rewrite (@process_not_loadable feature_body names_path input_path output_path s2 e
               Hfile2).
    simpl. repeat split; [exists []; now rewrite !app_nil_r | discriminate].
  - rewrite (@process_missing feature_body names_path input_path output_path s1 Hfiles).
    rewrite (@process_missing feature_body names_path input_path output_path s2 Hfile2).
    simpl. repeat split; [same_lines | discriminate].
Qed.

(** X14.  A call looks at one file.  The result of a call of
    [process_json_file] of either variant, the lines it prints and the
    output file it writes depend on the file system only through the
    content of the input file and through whether the output file can
    be written: on two file systems that agree on these two, the two
    calls return the same, print the same lines and, when they return
    [True], write the same output file. *)
Theorem X14_one_file input_path output_path s1 s2 :
  files s1 input_path = files s2 input_path ->
  unwritable s1 output_path = unwritable s2 output_path ->
  same_run output_path s1 s2
    (Geojson.process_json_file input_path output_path s1)
    (Geojson.process_json_file input_path output_path s2)
  /\ same_run output_path s1 s2
       (Multipoint.process_json_file input_path output_path s1)
       (Multipoint.process_json_file input_path output_path s2).
Proof.
  intros Hfiles Hunw. split; apply process_json_file_local;
    auto using wl_geojson_feature_body, wl_multipoint_feature_body.
Qed.

Lemma X14_one_file_witness :
  same_run output_path
    (world (Json example_doc))
    (mkState (fun p => if String.eqb p "other.json" then Some NotJson
                       else files (world (Json example_doc)) p)
             (fun _ => None) [InfoNoFeatures "other.json"] [])
    (Geojson.process_json_file input_path output_path (world (Json example_doc)))
    (Geojson.process_json_file input_path output_path
       (mkState (fun p => if String.eqb p "other.json" then Some NotJson
                          else files (world (Json example_doc)) p)
                (fun _ => None) [InfoNoFeatures "other.json"] [])).
Proof.
  apply (@X14_one_file input_path output_path (world (Json example_doc))
           (mkState (fun p => if String.eqb p "other.json" then Some NotJson
                              else files (world (Json example_doc)) p)
                    (fun _ => None) [InfoNoFeatures "other.json"] [])
           eq_refl eq_refl).
Defined.

Lemma map_block_ok (g : string -> bool) (blocks : list block) :
  Forall (fun b => g (block_name b) = block_ok b) blocks ->
  map block_ok blocks = map g (map block_name blocks).
Proof.
  induction 1 as [|b rest Hb _ IH]; simpl; [reflexivity|]. now rewrite Hb, IH.
Qed.

Section Independence.

Variable join : string -> string -> string.
Variable process : string -> string -> M bool.
Variable suffix : string.

Hypothesis process_cases : forall input_path output_path s,
  let run := process input_path output_path s in
  unwritable (snd run) = unwritable s
  /\ ((fst run <> Normal true /\ files (snd run) = files s)
      \/ (exists x rest content,
            final_features (snd run) = x :: rest
            /\ unwritable s output_path <> Some OpenFails
            /\ (content = written_document (x :: rest) \/ content = NotJson)
            /\ (fst run = Normal true -> content = written_document (x :: rest))
            /\ (unwritable s output_path = None -> fst run = Normal true)
            /\ files (snd run)
               = fun p => if String.eqb p output_path then Some content else files s p)).

Hypothesis process_local : forall input_path output_path s1 s2,
  files s1 input_path = files s2 input_path ->
  unwritable s1 output_path = unwritable s2 output_path ->
  fst (process input_path output_path s1) = fst (process input_path output_path s2).

Lemma convert_directory_independent input_dir output_dir w :
  no_overwrite join suffix input_dir output_dir (listed input_dir output_dir w) ->
  fst (convert_directory join process suffix input_dir output_dir w) = Done tt ->
  tally_of_alone join process suffix input_dir output_dir w
    (convert_directory join process suffix input_dir output_dir w).
Proof.
  unfold convert_directory, tally_of_alone, listed.
  destruct (os_isdir w input_dir) eqn:Hin; simpl; [|discriminate].
  destruct (makedirs output_dir w) as [e|ready] eqn:Hmk; [discriminate|].
  destruct (makedirs_keeps output_dir w Hmk) as (Hcons & _).
  simpl os_unlistable. simpl os_listdir.
  destruct (os_unlistable ready input_dir); [discriminate|].
  intros Hno.
  destruct (@convert_loop_blocks join process suffix input_dir output_dir process_cases
              (fun names w' =>
                 (forall f, In f names -> is_json f = true ->
                            os_read w' (join input_dir f) = os_read ready (join input_dir f))
                 /\ os_isdir w' = os_isdir ready
                 /\ os_fault w' = os_fault ready
                 /\ os_dirname w' = os_dirname ready
                 /\ no_overwrite join suffix input_dir output_dir (filter is_json names))
              (fun f b => converts_alone join process suffix input_dir output_dir ready f
                          = b))
    with (names := os_listdir ready input_dir) (file_count := 0%Z) (success_count := 0%Z)
         (w := say (OutputSavedIn output_dir) ready)
    as (blocks & Hoks & H).
  - intros filename rest w' (Hread & Hd & Hf & Hn & Hover) Hjson.
    cbn [filter] in Hover. rewrite Hjson in Hover.
    repeat split; auto. intros f Hinf. apply Hread. now right.
  - intros filename rest w' b l (Hread & Hd & Hf & Hn & Hover) Hjson Hb.
    cbn [filter] in Hover. rewrite Hjson in Hover.
    set (ip := join input_dir filename) in *.
    set (op := join output_dir (output_filename suffix filename)) in *.
    set (w1 := say (Processing filename) w') in *.
    assert (Hunw : os_unwritable w1 = os_unwritable ready).
    { apply unwritable_keeps; assumption. }
    split.
    + unfold converts_alone. fold ip op.
      rewrite call_fst in Hb |- *.
      rewrite (process_local ip op (mkState (os_read ready) (os_unwritable ready) [] [])
                 (mkState (os_read w1) (os_unwritable w1) [] [])).
      * rewrite Hb. now destruct b.
      * simpl. symmetry. apply Hread; [now left | exact Hjson].
      * simpl. now rewrite Hunw.
    + destruct (@call_keeps process process_cases ip op w1)
        as (Hd2 & Hf2 & Hn2 & _ & _ & Hread2).
      split; [|split; [|split; [|split]]].
      * intros f Hinf Hj.
        change (os_read (say l (snd (call process ip op w1))) (join input_dir f))
          with (os_read (snd (call process ip op w1)) (join input_dir f)).
        rewrite <- (Hread f (or_intror Hinf) Hj).
        destruct (Hread2 (join input_dir f)) as [->|[Heq _]]; [reflexivity|].
        exfalso. apply (Hover filename f); [now left | right |].
        -- apply filter_In. now split.
        -- symmetry. exact Heq.
      * simpl. now rewrite Hd2.
      * simpl. now rewrite Hf2.
      * simpl. now rewrite Hn2.
      * intros f f' Hf1 Hf1'. apply Hover; now right.
  - repeat split; auto.
  - cbv zeta in H.
    destruct (convert_loop _ _ _ _ _ _ _ _ _) as [[[fc sc]|c|e] w2]; simpl in *;
      try discriminate.
    intros _. destruct H as (Hnames & Hc & -> & -> & _).
    exists ready, blocks. split; [reflexivity|]. split; [exact Hnames|].
    split; [rewrite <- Hnames; now apply map_block_ok|].
    unfold summary. rewrite Hc, Hcons. now rewrite <- !app_assoc.
Qed.

End Independence.

(** X15.  The files of a batch are converted one by one.  When no
    output file of a run is also an input file of that run, a run of
    either driver that reaches its end reports as converted exactly
    the names that pass the filter and whose file [process_json_file]
    converts when called alone on the file system the run began on,
    once the output directory is there (before it is there no output
    file can be written): whether a file is converted does not depend
    on the other files of the directory nor on the order the directory
    lists them in. *)
Theorem X15_one_by_one join input_dir output_dir w :
  (no_overwrite join ".geojson" input_dir output_dir (listed input_dir output_dir w) ->
   fst (convert_directory_to_geojson join input_dir output_dir w) = Done tt ->
   tally_of_alone join Geojson.process_json_file ".geojson" input_dir output_dir w
     (convert_directory_to_geojson join input_dir output_dir w))
  /\ (no_overwrite join "_multipoint.geojson" input_dir output_dir
        (listed input_dir output_dir w) ->
      fst (convert_directory_to_multipoint join input_dir output_dir w) = Done tt ->
      tally_of_alone join Multipoint.process_json_file "_multipoint.geojson"
        input_dir output_dir w
        (convert_directory_to_multipoint join input_dir output_dir w)).
Proof.
  split; apply convert_directory_independent.
  - intros ip op s. apply process_json_file_cases. apply wl_geojson_feature_body.
  - intros ip op s1 s2 Hf Hu.
    apply (@process_json_file_local Geojson.feature_body true ip op s1 s2);
      auto using wl_geojson_feature_body.
  - intros ip op s. apply process_json_file_cases. apply wl_multipoint_feature_body.
  - intros ip op s1 s2 Hf Hu.
    apply (@process_json_file_local Multipoint.feature_body false ip op s1 s2);
      auto using wl_multipoint_feature_body.
Qed.

Lemma X15_one_by_one_witness :
  tally_of_alone BatchExamples.slash Geojson.process_json_file ".geojson" "in" "out"
    BatchExamples.good_machine
    (convert_directory_to_geojson BatchExamples.slash "in" "out"
       BatchExamples.good_machine).
Proof.
  apply (proj1 (@X15_one_by_one BatchExamples.slash "in" "out"
                  BatchExamples.good_machine)); [|reflexivity].
  intros f f' Hf Hf'. vm_compute in Hf, Hf'.
  destruct Hf as [<-|[<-|[<-|[]]]];
    destruct Hf' as [<-|[<-|[<-|[]]]]; vm_compute; discriminate.
Defined.
